(** * iMessage query server: contact resolution and transcript assembly

    A shallow embedding of [imessage_query_server.py]: the contact
    directory and its lookup ([lookup_contact_numbers]), the directory
    loader ([load_contacts_map]) and the tool [get_chat_transcript]
    (resolution, E.164 normalisation, store check, fetch, date filter and
    record shaping).

    Conventions.
    - Python [str] is [string], read as well-formed text in UTF-8, on
      which the substring test by bytes is the one by characters.  What
      [str.lower] does is not fixed here: it is the field [str_lower] of
      the interface [StrLib]; digits are ['0'..'9'].
    - A Python dict that is iterated ([contacts_map]) is an association
      list in insertion order, keys pairwise distinct; a dict that is only
      read by key (the per-contact record) is a [gmap].
    - Exceptions are values of [exn]; a function that can raise runs in the
      state-and-error monad [M].
    - The libraries the program calls but does not contain are interfaces:
      [PhoneLib] for [phonenumbers], [StrLib] for the case mapping of
      [str], the fields of [World] for the file system, the environment,
      the clock and [imessagedb].  [pathlib]'s pure paths are [PyPath]. *)

From Stdlib Require Import ZArith Lia Ascii String.
From stdpp Require Import base option strings list gmap.

Local Open Scope string_scope.
Local Open Scope list_scope.

(** ** Python string operations *)

Module PyStr.

Definition is_upper (c : ascii) : bool :=
  let n := nat_of_ascii c in (65 <=? n)%nat && (n <=? 90)%nat.

(** One of the letters a to z and A to Z. *)
Definition is_letter (c : ascii) : bool :=
  let n := nat_of_ascii c in
  ((65 <=? n)%nat && (n <=? 90)%nat) || ((97 <=? n)%nat && (n <=? 122)%nat).

Definition lower_char (c : ascii) : ascii :=
  if is_upper c then ascii_of_nat (nat_of_ascii c + 32) else c.

(** [s.lower()] on ASCII text: the letters A to Z are folded, every
    other byte is left alone. *)
Fixpoint lower (s : string) : string :=
  match s with
  | EmptyString => EmptyString
  | String c r => String (lower_char c) (lower r)
  end.

(** [s.startswith(p)] *)
Fixpoint startswith (p s : string) : bool :=
  match p, s with
  | EmptyString, _ => true
  | String _ _, EmptyString => false
  | String a p', String b s' => if decide (a = b) then startswith p' s' else false
  end.

(** [needle in hay] on strings *)
Fixpoint contains (needle hay : string) : bool :=
  startswith needle hay ||
  match hay with
  | EmptyString => false
  | String _ r => contains needle r
  end.

(** [s[:n]] *)
Fixpoint take (n : nat) (s : string) : string :=
  match n, s with
  | O, _ => EmptyString
  | S _, EmptyString => EmptyString
  | S n', String c r => String c (take n' r)
  end.

(** Truth value of an optional string: [None] and [""] are falsy. *)
Definition truthy (o : option string) : bool :=
  match o with
  | Some (String _ _) => true
  | _ => false
  end.

End PyStr.

(** ** Exceptions *)

Inductive exn : Type :=
| ValueError (msg : string)
| FileNotFoundError (msg : string)
| OverflowError (msg : string)
| IndexError (msg : string)
| TypeError (msg : string)
| AttributeError (msg : string).

(** ** The case mapping of [str]

    [s.lower()] as the program sees it.  The laws used are that the
    empty string stays empty and that lower-casing a lower-cased string
    changes nothing. *)

Class StrLib : Type := {
  str_lower : string -> string;
  str_lower_empty : str_lower "" = "";
  str_lower_idem : forall s, str_lower (str_lower s) = str_lower s
}.

(** ** The contact directory *)

(** One directory record, [{"phones": [...], "emails": [...]}]. *)
Abbreviation ContactInfo := (gmap string (list string)).

(** [contacts_map], in iteration order. *)
Definition Directory : Type := list (string * ContactInfo).

(** [info.get("phones", [])] *)
Definition info_phones (info : ContactInfo) : list string :=
  default [] (info !! "phones").

(** [contacts_map[key]] when [key in contacts_map] *)
Fixpoint dict_get (key : string) (d : Directory) : option ContactInfo :=
  match d with
  | [] => None
  | (name, info) :: rest =>
      if decide (key = name) then Some info else dict_get key rest
  end.

(** The loop of lines 154-156: the first entry whose lower-cased name
    contains the lower-cased contact ends the scan with its phone list. *)
Fixpoint scan_partial {S : StrLib} (contact_name_lower : string) (d : Directory)
  : option (list string) :=
  match d with
  | [] => None
  | (name, info) :: rest =>
      if PyStr.contains contact_name_lower (str_lower name)
      then Some (info_phones info)
      else scan_partial contact_name_lower rest
  end.

(** ** The world outside the program *)

(** A directory file: not there; there, but [open] or [json.load]
    raises (with the text of the exception); or holding an object of
    records. *)
Inductive ContactsFile : Type :=
| FileAbsent
| FileBroken (err : string)
| FileHolds (d : Directory).

(** A JSON value that is not an object, as far as the program can tell
    values apart: of a number whether it is a float and whether it is
    zero, the text of a string, and of an array which items are strings. *)
Inductive NonObject : Type :=
| JNull
| JBool (b : bool)
| JNumber (is_float is_zero : bool)
| JString (s : string)
| JArray (items : list (option string)).

(** What the server finds at [CONTACTS_MAP_PATH]: a directory file, or
    well-formed JSON whose value is not an object.  (An object whose
    members are not records of lists of strings is not modelled.) *)
Inductive DirectoryFile : Type :=
| FileOfRecords (f : ContactsFile)
| FileHoldsValue (v : NonObject).

Coercion FileOfRecords : ContactsFile >-> DirectoryFile.

(** [bool(v)] *)
Definition truthy_value (v : NonObject) : bool :=
  match v with
  | JNull => false
  | JBool b => b
  | JNumber _ is_zero => negb is_zero
  | JString s => PyStr.truthy (Some s)
  | JArray items => match items with [] => false | _ => true end
  end.

(** The Python name of the type of [v]. *)
Definition type_name (v : NonObject) : string :=
  match v with
  | JNull => "NoneType"
  | JBool _ => "bool"
  | JNumber is_float _ => if is_float then "float" else "int"
  | JString _ => "str"
  | JArray _ => "list"
  end.

(** What lines 149-154 do when the global holds [v]: the membership test
    raises on a value that is no container; where it holds, the
    subscript with a string raises; where it does not, [items] is
    missing.  The texts are those of Python 3.11. *)
Definition non_object_error (contact_name : string) (v : NonObject) : exn :=
  match v with
  | JNull | JBool _ | JNumber _ _ =>
      TypeError ("argument of type '" +:+ type_name v +:+ "' is not iterable")
  | JString s =>
      if PyStr.contains contact_name s
      then TypeError "string indices must be integers, not 'str'"
      else AttributeError "'str' object has no attribute 'items'"
  | JArray items =>
      if bool_decide (Some contact_name ∈ items)
      then TypeError "list indices must be integers or slices, not str"
      else AttributeError "'list' object has no attribute 'items'"
  end.

(** ** Pure paths of [pathlib] on POSIX *)

Module PyPath.

(** A parsed path: the root ([""], ["/"] or ["//"]) and the parts. *)
Record path : Type := { root : string; parts : list string }.

(** [s.split("/")] *)
Fixpoint split_slash_from (cur : string) (s : string) : list string :=
  match s with
  | EmptyString => [String.rev cur]
  | String c r =>
      if decide (c = "/"%char) then String.rev cur :: split_slash_from "" r
      else split_slash_from (String c cur) r
  end.

(** The number of slashes [s] begins with. *)
Fixpoint leading_slashes (s : string) : nat :=
  match s with
  | String "/" r => S (leading_slashes r)
  | _ => O
  end.

Definition is_part (p : string) : bool :=
  negb (bool_decide (p = "")) && negb (bool_decide (p = ".")).

(** [PurePosixPath(s)]: exactly two leading slashes are kept as the
    root, any other number of them is one; empty parts and [.] go. *)
Definition of_string (s : string) : path :=
  {| root := match leading_slashes s with
             | O => ""
             | 2 => "//"
             | _ => "/"
             end;
     parts := List.filter is_part (split_slash_from "" s) |}.

Fixpoint join_parts (ps : list string) : string :=
  match ps with
  | [] => ""
  | [p] => p
  | p :: rest => p +:+ "/" +:+ join_parts rest
  end.

(** [str(p)] *)
Definition to_string (p : path) : string :=
  match root p, parts p with
  | EmptyString, [] => "."
  | r, ps => r +:+ join_parts ps
  end.

(** [p / name] *)
Definition joinpath (p : path) (name : string) : path :=
  let q := of_string name in
  match root q with
  | EmptyString => {| root := root p; parts := parts p ++ parts q |}
  | _ => q
  end.

End PyPath.

(** ** Calendar dates and [datetime]

    [datetime] values as the program uses them: naive (no time zone),
    compared field by field.  The time of day is kept as one number of
    microseconds since midnight. *)

Module PyDate.

Record date : Type := mkDate { year : Z; month : Z; day : Z }.

Record datetime : Type := mkDatetime { dt_date : date; dt_tod : Z }.

Definition MINYEAR : Z := 1.
Definition MAXYEAR : Z := 9999.

Definition is_leap (y : Z) : bool :=
  ((y mod 4 =? 0) && (negb (y mod 100 =? 0) || (y mod 400 =? 0)))%Z.

Definition days_in_month (y m : Z) : Z :=
  if (m =? 2)%Z then (if is_leap y then 29 else 28)%Z
  else if ((m =? 4) || (m =? 6) || (m =? 9) || (m =? 11))%Z then 30%Z
  else 31%Z.

(** The check the [date] constructor performs. *)
Definition valid_date (d : date) : bool :=
  ((MINYEAR <=? year d) && (year d <=? MAXYEAR) &&
   (1 <=? month d) && (month d <=? 12) &&
   (1 <=? day d) && (day d <=? days_in_month (year d) (month d)))%Z.

Definition midnight (d : date) : datetime := mkDatetime d 0.

(** Field-wise order on dates and on datetimes ([<] and [<=]). *)
Definition date_lt (a b : date) : bool :=
  ((year a <? year b) ||
   ((year a =? year b) &&
    ((month a <? month b) || ((month a =? month b) && (day a <? day b)))))%Z.

Definition date_eqb (a b : date) : bool :=
  ((year a =? year b) && (month a =? month b) && (day a =? day b))%Z.

Definition datetime_lt (a b : datetime) : bool :=
  date_lt (dt_date a) (dt_date b) ||
  (date_eqb (dt_date a) (dt_date b) && (dt_tod a <? dt_tod b)%Z).

Definition date_le (a b : date) : bool := negb (date_lt b a).

(** The calendar day before [d]. *)
Definition prev_day (d : date) : date :=
  if (1 <? day d)%Z then mkDate (year d) (month d) (day d - 1)
  else if (1 <? month d)%Z
       then mkDate (year d) (month d - 1) (days_in_month (year d) (month d - 1))
       else mkDate (year d - 1) 12 31.

Fixpoint days_before (n : nat) (d : date) : date :=
  match n with
  | O => d
  | S k => days_before k (prev_day d)
  end.

(** [dt - timedelta(days=n)]: the date moves back [n] days, the time of
    day is kept; leaving the supported years raises [OverflowError]. *)
Definition sub_days (dt : datetime) (n : nat) : exn + datetime :=
  let d := days_before n (dt_date dt) in
  if (year d <? MINYEAR)%Z then inl (OverflowError "date value out of range")
  else inr (mkDatetime d (dt_tod dt)).

(** *** Digits *)

Definition digit_char (n : Z) : ascii := ascii_of_nat (48 + Z.to_nat n).

Definition digit_val (c : ascii) : option Z :=
  let n := nat_of_ascii c in
  if ((48 <=? n) && (n <=? 57))%nat then Some (Z.of_nat (n - 48)) else None.

Definition pad2 (n : Z) : string :=
  String (digit_char (n / 10 mod 10)) (String (digit_char (n mod 10)) "").

Definition pad4 (n : Z) : string :=
  String (digit_char (n / 1000 mod 10))
    (String (digit_char (n / 100 mod 10)) (pad2 n)).

(** The value of a string of decimal digits, [None] if empty or if a
    character is not a digit. *)
Fixpoint digits_val_from (acc : Z) (s : string) : option Z :=
  match s with
  | EmptyString => Some acc
  | String c r =>
      match digit_val c with
      | Some v => digits_val_from (acc * 10 + v) r
      | None => None
      end
  end.

Definition digits_val (s : string) : option Z :=
  match s with
  | EmptyString => None
  | _ => digits_val_from 0 s
  end.

(** Does [s] hold a character that is not a decimal digit? *)
Fixpoint has_non_digit (s : string) : bool :=
  match s with
  | EmptyString => false
  | String c r => negb (bool_decide (is_Some (digit_val c))) || has_non_digit r
  end.

(** [s.split("-")] *)
Fixpoint split_dash_from (cur : string) (s : string) : list string :=
  match s with
  | EmptyString => [String.rev cur]
  | String c r =>
      if decide (c = "-"%char) then String.rev cur :: split_dash_from "" r
      else split_dash_from (String c cur) r
  end.

Definition split_dash (s : string) : list string := split_dash_from "" s.

(** [date(y, m, d)], raising [ValueError] (here [None]) out of range. *)
Definition make_date (y m d : Z) : option date :=
  let r := mkDate y m d in if valid_date r then Some r else None.

(** [dt.strftime("%Y-%m-%d")], the year written with four digits. *)
Definition strftime_ymd (dt : datetime) : string :=
  let d := dt_date dt in
  pad4 (year d) +:+ "-" +:+ pad2 (month d) +:+ "-" +:+ pad2 (day d).

(** [datetime.fromisoformat(s)] on the calendar-date form [YYYY-MM-DD]
    (ten characters, fields of exactly four, two and two digits); the
    result is midnight of that day.  [None] stands for [ValueError].
    The other forms Python reads (a time after the date, and from 3.11
    on the basic and the week forms) are outside this model: a statement
    that needs a bound to be read asks for the calendar-date form, and
    one that needs it to be refused asks for a text that begins with a
    letter, which no form does. *)
Definition fromisoformat (s : string) : option datetime :=
  if decide (String.length s = 10%nat) then
    match split_dash s with
    | [y; m; d] =>
        if decide (String.length y = 4%nat /\ String.length m = 2%nat) then
          yv ← digits_val y; mv ← digits_val m; dv ← digits_val d;
          midnight <$> make_date yv mv dv
        else None
    | _ => None
    end
  else None.

(** The day field accepted by [%d]: one or two digits, or a space and
    one non-zero digit. *)
Definition day_field (s : string) : option Z :=
  match s with
  | String " " (String c "") =>
      v ← digit_val c; if (1 <=? v)%Z then Some v else None
  | _ => if decide (String.length s ≤ 2)%nat then digits_val s else None
  end.

(** [datetime.strptime(s, "%Y-%m-%d")]: a four-digit year, a month of
    one or two digits in 1..12, a day field in 1..31, then the [date]
    constructor's own check.  [None] stands for [ValueError]. *)
Definition strptime_ymd (s : string) : option datetime :=
  match split_dash s with
  | [y; m; d] =>
      if decide (String.length y = 4%nat /\ (String.length m ≤ 2)%nat) then
        yv ← digits_val y; mv ← digits_val m; dv ← day_field d;
        midnight <$> make_date yv mv dv
      else None
  | _ => None
  end.

End PyDate.

(** ** The phone-number library

    [phonenumbers] as the program sees it: [parse] either raises
    [NumberParseException] (left, with its text) or yields a number;
    [is_valid_number] and [format_number(_, E164)] are total on numbers. *)

Class PhoneLib : Type := {
  PhoneNumber : Type;
  parse : string -> string -> string + PhoneNumber;
  is_valid_number : PhoneNumber -> bool;
  format_e164 : PhoneNumber -> string
}.

(** ** Messages of the provider and records of the tool *)

Module Raw.

(** An attachment object; [None] in a field means the attribute is not
    there ([hasattr] is false). *)
Record Attachment : Type := {
  mime_type : option (option string);
  filename : option (option string);
  original_path : option (option string);
  missing : option bool
}.

(** A message object of [imessagedb]. *)
Record Message : Type := {
  text : option string;
  date : string;
  is_from_me : Z;
  attachments : option (list Attachment)
}.

End Raw.

Module Out.

Record AttachmentRecord : Type := {
  mime_type : option string;
  filename : option string;
  file_path : option string;
  is_missing : bool
}.

Record TranscriptRecord : Type := {
  text : string;
  date : string;
  is_from_me : bool;
  has_attachments : bool;
  attachments : list AttachmentRecord
}.

Record Result : Type := {
  messages : list TranscriptRecord;
  total_count : nat
}.

End Out.

(** ** World and program state *)

Record World : Type := {
  (** content of [contacts_map.json] *)
  contacts_file : DirectoryFile;
  (** [str(Path.home())] *)
  home : string;
  (** [os.environ.get('SQLITE_DB_PATH')] *)
  SQLITE_DB_PATH : option string;
  (** [p.exists()], by [str(p)] *)
  path_exists : string -> bool;
  (** [db.Messages("person", id, numbers=ns).message_list] *)
  message_list : string -> list string -> list Raw.Message;
  (** [datetime.now()] *)
  now : PyDate.datetime
}.

(** What the program does to the message store, in order. *)
Inductive Event : Type :=
| EvConnect (path : string)
| EvFetch (id : string) (numbers : list string).

Record State : Type := {
  (** the global [contacts_map], when it holds a directory *)
  contacts_map : Directory;
  (** the value of the global when that is not an object; it is
      consulted only while [contacts_map] is empty *)
  contacts_other : option NonObject;
  (** [DatabaseContext._instance._db]: the path the connection was opened on *)
  db_conn : option string;
  trace : list Event
}.

Definition initial_state : State :=
  {| contacts_map := []; contacts_other := None; db_conn := None; trace := [] |}.

(** The value of the global when it is not a directory. *)
Definition global_value (st : State) : option NonObject :=
  match contacts_map st with
  | [] => contacts_other st
  | _ => None
  end.

(** [not contacts_map] *)
Definition global_falsy (st : State) : bool :=
  match contacts_map st with
  | [] =>
      match contacts_other st with
      | Some v => negb (truthy_value v)
      | None => true
      end
  | _ => false
  end.

(** ** The state-and-exception monad *)

Definition M (A : Type) : Type := State -> (exn + A) * State.

#[global] Instance M_ret : MRet M := fun A a st => (inr a, st).

#[global] Instance M_bind : MBind M := fun A B f m st =>
  match m st with
  | (inr a, st') => f a st'
  | (inl e, st') => (inl e, st')
  end.

Definition raise {A : Type} (e : exn) : M A := fun st => (inl e, st).

Definition get_state : M State := fun st => (inr st, st).

Definition put_state (st : State) : M unit := fun _ => (inr tt, st).

Definition log_event (ev : Event) : M unit := fun st =>
  (inr tt, {| contacts_map := contacts_map st; contacts_other := contacts_other st;
              db_conn := db_conn st; trace := trace st ++ [ev] |}).

(** A pure computation that may raise, run inside [M]. *)
Definition lift_exn {A : Type} (r : exn + A) : M A := fun st => (r, st).

Section Program.

Context (w : World) {L : PhoneLib} {S : StrLib}.

(** *** [load_contacts_map] (lines 68-79) *)
Definition load_contacts_map : M unit := fun st =>
  match contacts_file w with
  | FileOfRecords (FileHolds d) =>
      (inr tt, {| contacts_map := d; contacts_other := None;
                  db_conn := db_conn st; trace := trace st |})
  | FileOfRecords FileAbsent => (inr tt, st)
  | FileOfRecords (FileBroken _) => (inr tt, st)
  | FileHoldsValue v =>
      (inr tt, {| contacts_map := []; contacts_other := Some v;
                  db_conn := db_conn st; trace := trace st |})
  end.

(** *** [lookup_contact_numbers] (lines 136-158) *)
Definition lookup_contact_numbers (contact_name : string)
  : M (option (list string)) :=
  st ← get_state;
  _ ← (if global_falsy st then load_contacts_map else mret tt);
  st ← get_state;
  match global_value st with
  | Some v => raise (non_object_error contact_name v)
  | None =>
      match dict_get contact_name (contacts_map st) with
      | Some info => mret (Some (info_phones info))
      | None => mret (scan_partial (str_lower contact_name) (contacts_map st))
      end
  end.

(** *** [DB_PATH] (lines 133-134) *)
Definition DEFAULT_DB_PATH : PyPath.path :=
  PyPath.joinpath
    (PyPath.joinpath (PyPath.joinpath (PyPath.of_string (home w)) "Library") "Messages")
    "chat.db".

(** [str(DB_PATH)] *)
Definition DB_PATH : string :=
  PyPath.to_string
    match SQLITE_DB_PATH w with
    | Some text => PyPath.of_string text
    | None => DEFAULT_DB_PATH
    end.

(** *** [DatabaseContext.get_connection] (lines 263-267)

    The store is one that [imessagedb.DB] opens: the constructor
    returns, and so does the fetch below. *)
Definition get_connection : M string :=
  st ← get_state;
  match db_conn st with
  | Some p => mret p
  | None =>
      _ ← put_state {| contacts_map := contacts_map st;
                       contacts_other := contacts_other st;
                       db_conn := Some DB_PATH; trace := trace st |};
      _ ← log_event (EvConnect DB_PATH);
      mret DB_PATH
  end.

(** [db.Messages("person", phone_number, numbers=[phone_number])] *)
Definition fetch_messages (phone_number : string) : M (list Raw.Message) :=
  _ ← log_event (EvFetch phone_number [phone_number]);
  mret (message_list w phone_number [phone_number]).

(** *** Resolution: lines 170-184 *)
Definition not_found_msg (contact : string) : string :=
  "Could not find contact '" +:+ contact +:+ "' in contacts map".

Definition not_found_invalid_msg (contact : string) : string :=
  not_found_msg contact +:+ " and input is not a valid phone number".

Definition resolve_contact (contact : string) : M (list string) :=
  contact_numbers ← lookup_contact_numbers contact;
  match contact_numbers with
  | Some (p :: ps) => mret (p :: ps)
  | _ =>
      match parse contact "US" with
      | inr parsed =>
          if is_valid_number parsed then mret [format_e164 parsed]
          else raise (ValueError (not_found_invalid_msg contact))
      | inl _ => raise (ValueError (not_found_msg contact))
      end
  end.

(** *** Normalisation to E.164: lines 191-199 *)
Definition normalize_phone (phone_number : string) : exn + string :=
  match parse phone_number "US" with
  | inr parsed =>
      if negb (is_valid_number parsed)
      then inl (ValueError ("Invalid phone number: " +:+ phone_number))
      else inr (format_e164 parsed)
  | inl e => inl (ValueError ("Invalid phone number format: " +:+ e))
  end.

(** *** Default window: lines 211-215 *)
Definition resolve_window (start_date end_date : option string)
  : exn + (option string * option string) :=
  if negb (PyStr.truthy start_date) && negb (PyStr.truthy end_date) then
    let end_dt := now w in
    match PyDate.sub_days end_dt 7 with
    | inl e => inl e
    | inr start_dt =>
        inr (Some (PyDate.strftime_ymd start_dt), Some (PyDate.strftime_ymd end_dt))
    end
  else inr (start_date, end_date).

End Program.

(** ** Shaping one message: lines 232-245 *)

Definition flatten_attr {A : Type} (a : option (option A)) : option A :=
  match a with
  | Some v => v
  | None => None
  end.

Definition shape_attachment (att : Raw.Attachment) : Out.AttachmentRecord :=
  {| Out.mime_type := flatten_attr (Raw.mime_type att);
     Out.filename := flatten_attr (Raw.filename att);
     Out.file_path := flatten_attr (Raw.original_path att);
     Out.is_missing := default false (Raw.missing att) |}.

(** [bool(msg.attachments)] *)
Definition has_any {A : Type} (l : option (list A)) : bool :=
  match l with
  | Some (_ :: _) => true
  | _ => false
  end.

Definition shape_message (msg : Raw.Message) : Out.TranscriptRecord :=
  {| Out.text := if PyStr.truthy (Raw.text msg) then default "" (Raw.text msg) else "";
     Out.date := Raw.date msg;
     Out.is_from_me := negb (Raw.is_from_me msg =? 0)%Z;
     Out.has_attachments := has_any (Raw.attachments msg);
     Out.attachments :=
       if has_any (Raw.attachments msg)
       then shape_attachment <$> default [] (Raw.attachments msg)
       else [] |}.

(** ** The date filter: lines 218-231 *)

(** The [ValueError] of [strptime] and of [fromisoformat].  The class
    is the program's; of the texts only the common one is written out
    ([strptime] has others, for trailing characters and for a day the
    month does not have), so the statements below speak of the class. *)
Definition bad_time_data (s : string) : exn :=
  ValueError ("time data '" +:+ s +:+ "' does not match format '%Y-%m-%d'").

Definition bad_isoformat (s : string) : exn :=
  ValueError ("Invalid isoformat string: '" +:+ s +:+ "'").

(** One bound of the window: [None] or [""] imposes nothing; otherwise
    the bound is parsed (for every message anew) and compared by
    [outside]. *)
Definition check_bound (bound : option string)
    (outside : PyDate.datetime -> bool) : exn + bool :=
  if PyStr.truthy bound then
    match PyDate.fromisoformat (default "" bound) with
    | Some b => inr (negb (outside b))
    | None => inl (bad_isoformat (default "" bound))
    end
  else inr true.

(** Does the loop body reach [append] for [msg]?  [inr false] is
    [continue]. *)
Definition keep_message (start_date end_date : option string)
    (msg : Raw.Message) : exn + bool :=
  match PyDate.strptime_ymd (PyStr.take 10 (Raw.date msg)) with
  | None => inl (bad_time_data (PyStr.take 10 (Raw.date msg)))
  | Some msg_date =>
      match check_bound start_date (fun start_dt => PyDate.datetime_lt msg_date start_dt) with
      | inl e => inl e
      | inr false => inr false
      | inr true =>
          check_bound end_date (fun end_dt => PyDate.datetime_lt end_dt msg_date)
      end
  end.

(** The [for] loop, [filtered_messages] being the accumulator. *)
Fixpoint filter_loop (start_date end_date : option string)
    (msgs : list Raw.Message) (filtered_messages : list Out.TranscriptRecord)
  : exn + list Out.TranscriptRecord :=
  match msgs with
  | [] => inr filtered_messages
  | msg :: rest =>
      match keep_message start_date end_date msg with
      | inl e => inl e
      | inr true =>
          filter_loop start_date end_date rest (filtered_messages ++ [shape_message msg])
      | inr false => filter_loop start_date end_date rest filtered_messages
      end
  end.

Section Tool.

Context (w : World) {L : PhoneLib} {S : StrLib}.

(** ** [get_chat_transcript] (lines 162-250) *)
Definition get_chat_transcript (contact : string)
    (start_date end_date : option string) : M Out.Result :=
  contact_numbers ← resolve_contact w contact;
  phone_number ← match contact_numbers with
                  | p :: _ => mret p
                  | [] => raise (IndexError "list index out of range")
                  end;
  phone_number ← lift_exn (normalize_phone phone_number);
  if negb (path_exists w (DB_PATH w)) then
    raise (FileNotFoundError ("Messages database not found at: " +:+ DB_PATH w))
  else
    _ ← get_connection w;
    messages ← fetch_messages w phone_number;
    window ← lift_exn (resolve_window w start_date end_date);
    filtered_messages ← lift_exn (filter_loop window.1 window.2 messages []);
    mret {| Out.messages := filtered_messages;
            Out.total_count := length filtered_messages |}.


End Tool.

(** ** Pure views used in the statements *)

(** The state a lookup works on: a falsy global is reloaded first
    (lines 145-146). *)
Definition reload_if_empty (w : World) (st : State) : State :=
  if global_falsy st then (load_contacts_map w st).2 else st.

(** The answer of [lookup_contact_numbers] on a given directory. *)
Definition lookup_in {S : StrLib} (d : Directory) (contact_name : string)
  : option (list string) :=
  match dict_get contact_name d with
  | Some info => Some (info_phones info)
  | None => scan_partial (str_lower contact_name) d
  end.

(** [name] contains [contact], ignoring case. *)
Definition name_matches {S : StrLib} (contact name : string) : Prop :=
  exists pre post, str_lower name = pre +:+ str_lower contact +:+ post.

(** The two texts with which line 181 and line 184 report an unknown
    contact. *)
Definition ContactNotFound (contact : string) (e : exn) : Prop :=
  e = ValueError (not_found_msg contact) \/
  e = ValueError (not_found_invalid_msg contact).

(** The calendar day of a message: the first ten characters of its
    timestamp, read by [strptime]. *)
Definition msg_day (msg : Raw.Message) : option PyDate.date :=
  PyDate.dt_date <$> PyDate.strptime_ymd (PyStr.take 10 (Raw.date msg)).

(** A bound of the window as a calendar date: [Some None] when the bound
    is not set, [None] when it is set but is not an ISO calendar date. *)
Definition parse_bound (bound : option string) : option (option PyDate.date) :=
  if PyStr.truthy bound
  then Some <$> (PyDate.dt_date <$> PyDate.fromisoformat (default "" bound))
  else Some None.

(** Inclusive membership of a day in a window of optional bounds. *)
Definition in_window (s e : option PyDate.date) (d : PyDate.date) : bool :=
  match s with Some sd => PyDate.date_le sd d | None => true end &&
  match e with Some ed => PyDate.date_le d ed | None => true end.

Definition msg_in_window (s e : option PyDate.date) (msg : Raw.Message) : bool :=
  match msg_day msg with
  | Some d => in_window s e d
  | None => false
  end.

(** Does the loop keep [msg]?  A message on which the loop raises is not
    kept. *)
Definition retained (start_date end_date : option string) (msg : Raw.Message) : bool :=
  match keep_message start_date end_date msg with
  | inr true => true
  | _ => false
  end.

(** The [n] calendar days ending with [d], latest first. *)
Definition days_ending (n : nat) (d : PyDate.date) : list PyDate.date :=
  (fun k => PyDate.days_before k d) <$> seq 0 n.

(** The events of a run: what [st'] has logged beyond [st]. *)
Definition new_events (st st' : State) (evs : list Event) : Prop :=
  trace st' = trace st ++ evs.

Definition is_fetch (ev : Event) : bool :=
  match ev with
  | EvFetch _ _ => true
  | EvConnect _ => false
  end.



(** The raw-phone fallback of lines 174-184 on its own. *)
Definition phone_only {L : PhoneLib} (contact : string) : exn + list string :=
  match parse contact "US" with
  | inr parsed =>
      if is_valid_number parsed then inr [format_e164 parsed]
      else inl (ValueError (not_found_invalid_msg contact))
  | inl _ => inl (ValueError (not_found_msg contact))
  end.

(** ** A small phone library to run the model on

    Numbers of the North American plan written with digits, the
    separators space, [-], [.], [(], [)], and an optional [+1] or [1] in
    front.  A number is its ten-digit national part; it is valid when the
    area code and the exchange both start with 2..9. *)

Module Nanp.

Definition is_digit (c : ascii) : bool :=
  match PyDate.digit_val c with Some _ => true | None => false end.

Definition is_separator (c : ascii) : bool :=
  bool_decide (c ∈ [" "; "-"; "."; "("; ")"]%char).

Fixpoint all_chars (P : ascii -> bool) (s : string) : bool :=
  match s with
  | EmptyString => true
  | String c r => P c && all_chars P r
  end.

Fixpoint digits_of (s : string) : string :=
  match s with
  | EmptyString => EmptyString
  | String c r => if is_digit c then String c (digits_of r) else digits_of r
  end.

Definition not_a_number : string :=
  "(1) The string supplied did not seem to be a phone number.".

Definition parse (s region : string) : string + string :=
  let '(plus, body) :=
    match s with
    | String "+" r => (true, r)
    | _ => (false, s)
    end in
  if negb (all_chars (fun c => is_digit c || is_separator c) body)
  then inl not_a_number
  else
    let ds := digits_of body in
    if (String.length ds <? 3)%nat then inl not_a_number
    else
      match ds with
      | String "1" r =>
          if plus || (String.length r =? 10)%nat then inr r else inr ds
      | _ =>
          if plus then inl "(0) Could not interpret numbers after plus-sign."
          else inr ds
      end.

Definition starts_2_9 (s : string) : bool :=
  match s with
  | String c _ =>
      match PyDate.digit_val c with Some v => (2 <=? v)%Z | None => false end
  | EmptyString => false
  end.

Definition is_valid_number (nn : string) : bool :=
  (String.length nn =? 10)%nat && all_chars is_digit nn &&
  starts_2_9 nn && starts_2_9 (String.substring 3 7 nn).

Definition format_e164 (nn : string) : string := "+1" +:+ nn.

#[export] Instance lib : PhoneLib :=
  Build_PhoneLib string parse is_valid_number format_e164.

End Nanp.

(** ** A case mapping to run the model on

    [PyStr.lower], which folds the letters A to Z and leaves every other
    byte alone: [str.lower] on text without other cased letters. *)

Module AsciiText.

Lemma lower_char_idem (c : ascii) :
  PyStr.lower_char (PyStr.lower_char c) = PyStr.lower_char c.
Proof. destruct c as [[] [] [] [] [] [] [] []]; reflexivity. Qed.

Lemma lower_idem (s : string) : PyStr.lower (PyStr.lower s) = PyStr.lower s.
Proof.
  induction s as [|c s IH]; simpl; [reflexivity|].
  rewrite lower_char_idem, IH. reflexivity.
Qed.

#[export] Instance lib : StrLib :=
  {| str_lower := PyStr.lower; str_lower_empty := eq_refl;
     str_lower_idem := lower_idem |}.

End AsciiText.

(** ** Sample data *)

Module Sample.

Definition ann_lee : ContactInfo :=
  <["emails" := ["ann.lee@example.org"]]> {["phones" := []]}.

Definition ann_smith : ContactInfo :=
  <["emails" := []]> {["phones" := ["(650) 253-0000"; "201-555-0123"]]}.

Definition bob : ContactInfo :=
  <["emails" := []]> {["phones" := ["+1 201 555 0123"]]}.

Definition directory : Directory :=
  [("Ann Lee", ann_lee); ("Ann Smith", ann_smith); ("Bob Stone", bob)].

Definition photo : Raw.Attachment :=
  {| Raw.mime_type := Some (Some "image/jpeg");
     Raw.filename := Some (Some "IMG_0001.jpg");
     Raw.original_path := Some None;
     Raw.missing := None |}.

Definition message (date : string) (text : option string)
    (atts : option (list Raw.Attachment)) : Raw.Message :=
  {| Raw.text := text; Raw.date := date; Raw.is_from_me := 1;
     Raw.attachments := atts |}.

Definition history : list Raw.Message :=
  [ message "2024-03-02 08:00:00" (Some "nine days ago") None;
    message "2024-03-03 09:30:00" (Some "a week ago") None;
    message "2024-03-04 10:00:00" None (Some [photo]);
    message "2024-03-10 23:59:59" (Some "today") (Some []);
    message "2024-03-11 00:00:01" (Some "tomorrow") None ].

Definition noon_2024_03_10 : PyDate.datetime :=
  PyDate.mkDatetime (PyDate.mkDate 2024 3 10) 43200000000.

Definition world (file : ContactsFile) (store_there : bool) : World :=
  {| contacts_file := file;
     home := "/Users/me";
     SQLITE_DB_PATH := None;
     path_exists := fun _ => store_there;
     message_list := fun id _ =>
       if decide (id = "+16502530000") then history else [];
     now := noon_2024_03_10 |}.

Definition loaded (d : Directory) : State :=
  {| contacts_map := d; contacts_other := None; db_conn := None; trace := [] |}.

(** The same machine with any content of the directory file and with
    [SQLITE_DB_PATH] set to [db]. *)
Definition world_of (file : DirectoryFile) (db : option string)
    (store_there : bool) : World :=
  {| contacts_file := file;
     home := "/Users/me";
     SQLITE_DB_PATH := db;
     path_exists := fun _ => store_there;
     message_list := fun id _ =>
       if decide (id = "+16502530000") then history else [];
     now := noon_2024_03_10 |}.

End Sample.

(** ** The claims as the specification words them

    Each proposition below follows a sentence of the specification that
    the program does not satisfy; it is refuted further down and replaced
    by the statement that holds. *)

(** Substring rule, as specified: among the entries whose name contains
    the contact, one without phones is passed over, and the first one
    with a phone supplies the answer. *)
Definition substring_rule_as_specified : Prop :=
  forall (S : StrLib) (w : World) (st : State) (contact : string)
         (pre post : Directory) (name : string) (info : ContactInfo),
    contacts_map st = pre ++ (name, info) :: post ->
    dict_get contact (contacts_map st) = None ->
    name_matches contact name ->
    info_phones info <> [] ->
    (forall n i, In (n, i) pre -> ~ (name_matches contact n /\ info_phones i <> [])) ->
    (lookup_contact_numbers w contact st).1 = inr (Some (info_phones info)).

(** Empty contact, as specified: with a non-empty directory the call
    does not end in the unknown-contact error. *)
Definition empty_contact_as_specified : Prop :=
  forall (w : World) (L : PhoneLib) (S : StrLib) (st : State)
         (start_date end_date : option string) (e : exn),
    contacts_map st <> [] ->
    (get_chat_transcript w "" start_date end_date st).1 = inl e ->
    ~ ContactNotFound "" e.



(** Default window, as specified: a message passes the default window
    exactly when its day is one of the seven calendar days ending today. *)
Definition default_window_as_specified : Prop :=
  forall (w : World) (msg : Raw.Message) (d : PyDate.date) (s e : option string),
    PyDate.valid_date (PyDate.dt_date (now w)) = true ->
    resolve_window w None None = inr (s, e) ->
    msg_day msg = Some d ->
    (keep_message s e msg = inr true <-> In d (days_ending 7 (PyDate.dt_date (now w)))).

(** ** Further views of the server *)

(** The directory a call leaves in the global: a loaded map is kept; a
    falsy global is replaced by what the file holds, which is a directory
    or not; a value that is not a directory leaves the view empty. *)
Definition directory_after (w : World) (st : State) : Directory :=
  match contacts_map st with
  | [] =>
      if global_falsy st then
        match contacts_file w with
        | FileOfRecords (FileHolds d) => d
        | _ => []
        end
      else []
  | d => d
  end.

(** ** The exporter, [export_contacts.py] *)

Module Exporter.

(** One row of the query of lines 33-43; [None] is SQL [NULL]. *)
Record Row : Type := {
  ZFIRSTNAME : option string;
  ZLASTNAME : option string;
  ZFULLNUMBER : option string;
  ZADDRESS : option string
}.

(** [c.isspace()] on ASCII: tab to carriage return, the four separators
    and the space. *)
Definition is_space (c : ascii) : bool :=
  let n := nat_of_ascii c in
  ((9 <=? n) && (n <=? 13))%nat || ((28 <=? n) && (n <=? 32))%nat.

(** [s.lstrip()] *)
Fixpoint lstrip (s : string) : string :=
  match s with
  | EmptyString => EmptyString
  | String c r => if is_space c then lstrip r else s
  end.

(** [s.strip()] *)
Definition strip (s : string) : string :=
  String.rev (lstrip (String.rev (lstrip s))).

(** [x or ""] *)
Definition or_empty (o : option string) : string :=
  if PyStr.truthy o then default "" o else "".

(** [info["emails"]] *)
Definition info_emails (info : ContactInfo) : list string :=
  default [] (info !! "emails").

(** [{"phones": [], "emails": []}] *)
Definition new_info : ContactInfo :=
  <["emails" := []]> {["phones" := []]}.

(** [contacts_map[key] = f(contacts_map[key])], in place. *)
Fixpoint dict_alter (f : ContactInfo -> ContactInfo) (key : string)
    (d : Directory) : Directory :=
  match d with
  | [] => []
  | (name, info) :: rest =>
      if decide (key = name) then (name, f info) :: rest
      else (name, info) :: dict_alter f key rest
  end.

(** [contacts_map[name]["phones"]], [contacts_map[name]["emails"]] *)
Definition phones_of (name : string) (d : Directory) : list string :=
  match dict_get name d with
  | Some info => info_phones info
  | None => []
  end.

Definition emails_of (name : string) (d : Directory) : list string :=
  match dict_get name d with
  | Some info => info_emails info
  | None => []
  end.

(** [info["phones"].append(phone)], [info["emails"].append(email)] *)
Definition append_phone (phone : string) (info : ContactInfo) : ContactInfo :=
  <["phones" := info_phones info ++ [phone]]> info.

Definition append_email (email : string) (info : ContactInfo) : ContactInfo :=
  <["emails" := info_emails info ++ [email]]> info.

(** [f"{first_name} {last_name}".strip()] *)
Definition row_name (row : Row) : string :=
  strip (or_empty (ZFIRSTNAME row) +:+ " " +:+ or_empty (ZLASTNAME row)).

(** Lines 60-65: the record of [name] is created when it is not there. *)
Definition ensure_contact (name : string) (d : Directory) : Directory :=
  match dict_get name d with
  | Some _ => d
  | None => d ++ [(name, new_info)]
  end.

(** Lines 67-69. *)
Definition add_phone (name : string) (phone : option string) (d : Directory)
  : Directory :=
  if PyStr.truthy phone && negb (bool_decide (default "" phone ∈ phones_of name d))
  then dict_alter (append_phone (default "" phone)) name d
  else d.

(** Lines 71-73. *)
Definition add_email {S : StrLib} (name : string) (email : option string)
    (d : Directory) : Directory :=
  if PyStr.truthy email
     && negb (bool_decide (str_lower (default "" email) ∈ emails_of name d))
  then dict_alter (append_email (str_lower (default "" email))) name d
  else d.

(** The body of the loop of lines 49-73 for one row. *)
Definition add_row {S : StrLib} (contacts_map : Directory) (row : Row) : Directory :=
  let name := row_name row in
  if decide (name = "") then contacts_map
  else add_email name (ZADDRESS row)
         (add_phone name (ZFULLNUMBER row) (ensure_contact name contacts_map)).

(** [v["phones"] or v["emails"]] *)
Definition has_data (entry : string * ContactInfo) : bool :=
  match info_phones entry.2, info_emails entry.2 with
  | [], [] => false
  | _, _ => true
  end.

(** Lines 26 and 49-77: the map built from the rows of the query. *)
Definition build_contacts {S : StrLib} (results : list Row) : Directory :=
  List.filter has_data (fold_left add_row results []).







(** *** Views of the exporter *)

(** An entry as the exporter leaves it: a name that is not empty, both
    lists present, no phone and no e-mail address twice, addresses in
    lower case. *)
Definition well_formed_entry {S : StrLib} (entry : string * ContactInfo) : Prop :=
  entry.1 <> ""
  /\ is_Some (entry.2 !! "phones") /\ is_Some (entry.2 !! "emails")
  /\ NoDup (info_phones entry.2) /\ NoDup (info_emails entry.2)
  /\ Forall (fun e => str_lower e = e) (info_emails entry.2).

Definition well_formed {S : StrLib} (d : Directory) : Prop :=
  NoDup d.*1 /\ Forall well_formed_entry d.




End Exporter.

(** ** The command-line script, [test_imessage_query.py] *)

Module Script.

(** What the script reads: the directory file (modelled as far as
    [ContactsFile] goes), the provider, the clock. *)
Record Env : Type := {
  contacts_file : ContactsFile;
  (** [imessagedb.DB(path).Messages("person", id).message_list]; [None]
      when opening the store or reading it raises *)
  person_messages : string -> option (list Raw.Message);
  now : PyDate.datetime
}.

(** A record of the script: the text is passed on as it is. *)
Record Entry : Type := {
  text : option string;
  date : string;
  is_from_me : Z
}.

(** [load_contacts_map] (lines 27-39): the new value of the global, or
    the text of the exception, which is logged and raised again. *)
Definition load_contacts_map (env : Env) (contacts_map : Directory)
  : string + Directory :=
  match contacts_file env with
  | FileHolds d => inr d
  | FileAbsent => inr contacts_map
  | FileBroken err => inl err
  end.

(** [lookup_contact_numbers] (lines 41-56) *)
Definition lookup_contact_numbers {S : StrLib} (env : Env) (contact_name : string)
    (contacts_map : Directory) : (string + option (list string)) * Directory :=
  match (match contacts_map with
         | [] => load_contacts_map env contacts_map
         | _ => inr contacts_map
         end) with
  | inl err => (inl err, contacts_map)
  | inr loaded =>
      (inr (match dict_get contact_name loaded with
            | Some info => Some (info_phones info)
            | None => scan_partial (str_lower contact_name) loaded
            end), loaded)
  end.

(** The calendar day after [d]. *)
Definition next_day (d : PyDate.date) : PyDate.date :=
  if (PyDate.day d <? PyDate.days_in_month (PyDate.year d) (PyDate.month d))%Z
  then PyDate.mkDate (PyDate.year d) (PyDate.month d) (PyDate.day d + 1)
  else if (PyDate.month d <? 12)%Z
       then PyDate.mkDate (PyDate.year d) (PyDate.month d + 1) 1
       else PyDate.mkDate (PyDate.year d + 1) 1 1.

Fixpoint days_after (n : nat) (d : PyDate.date) : PyDate.date :=
  match n with
  | O => d
  | S k => days_after k (next_day d)
  end.

(** [dt - timedelta(days=n)] for any integer [n]; [None] stands for
    [OverflowError]. *)
Definition minus_days (dt : PyDate.datetime) (n : Z) : option PyDate.datetime :=
  if (0 <=? n)%Z then
    let d := PyDate.days_before (Z.to_nat n) (PyDate.dt_date dt) in
    if (PyDate.year d <? PyDate.MINYEAR)%Z then None
    else Some (PyDate.mkDatetime d (PyDate.dt_tod dt))
  else
    let d := days_after (Z.to_nat (- n)) (PyDate.dt_date dt) in
    if (PyDate.MAXYEAR <? PyDate.year d)%Z then None
    else Some (PyDate.mkDatetime d (PyDate.dt_tod dt)).

(** [a <= b] on datetimes *)
Definition datetime_le (a b : PyDate.datetime) : bool :=
  negb (PyDate.datetime_lt b a).

(** Lines 96-97: the date of the message and the test
    [start_dt <= msg_date <= end_dt]; [None] when [strptime] raises. *)
Definition in_range (start_dt end_dt : PyDate.datetime) (msg : Raw.Message)
  : option bool :=
  match PyDate.strptime_ymd (PyStr.take 10 (Raw.date msg)) with
  | None => None
  | Some msg_date => Some (datetime_le start_dt msg_date && datetime_le msg_date end_dt)
  end.

Definition entry_of (msg : Raw.Message) : Entry :=
  {| text := Raw.text msg; date := Raw.date msg; is_from_me := Raw.is_from_me msg |}.

(** The loop of lines 94-102; [None] when an exception leaves it. *)
Fixpoint recent_loop (start_dt end_dt : PyDate.datetime) (msgs : list Raw.Message)
    (filtered_messages : list Entry) : option (list Entry) :=
  match msgs with
  | [] => Some filtered_messages
  | msg :: rest =>
      match in_range start_dt end_dt msg with
      | None => None
      | Some true => recent_loop start_dt end_dt rest (filtered_messages ++ [entry_of msg])
      | Some false => recent_loop start_dt end_dt rest filtered_messages
      end
  end.

(** [get_messages_for_contact] (lines 58-108): on the left the text of
    an exception that escapes, on the right the value returned, [None]
    being Python's [None]; beside it the global after the call. *)
Definition get_messages_for_contact {L : PhoneLib} {S : StrLib} (env : Env)
    (contact_name : string) (days_back : Z) (contacts_map : Directory)
  : (string + option (list Entry)) * Directory :=
  match lookup_contact_numbers env contact_name contacts_map with
  | (inl err, cm) => (inl err, cm)
  | (inr (Some (phone_number :: _)), cm) =>
      match parse phone_number "US" with
      | inl _ => (inr None, cm)
      | inr parsed =>
          if negb (is_valid_number parsed) then (inr None, cm)
          else
            match person_messages env (format_e164 parsed) with
            | None => (inr None, cm)
            | Some message_list =>
                match minus_days (now env) days_back with
                | None => (inr None, cm)
                | Some start_dt =>
                    (inr (recent_loop start_dt (now env) message_list []), cm)
                end
            end
      end
  | (inr _, cm) => (inr None, cm)
  end.

End Script.

(** ** Sample rows *)

Module SampleRows.

Definition row (first last phone email : option string) : Exporter.Row :=
  {| Exporter.ZFIRSTNAME := first; Exporter.ZLASTNAME := last;
     Exporter.ZFULLNUMBER := phone; Exporter.ZADDRESS := email |}.

Definition results : list Exporter.Row :=
  [ row (Some "Ann") (Some "Smith") (Some "(650) 253-0000") (Some "Ann@Example.org");
    row (Some "Ann") (Some "Smith") (Some "201-555-0123") (Some "ann@example.org");
    row None (Some "Lee") None (Some "lee@example.org");
    row (Some " ") None (Some "650-253-0000") None;
    row (Some "Ann") (Some "Smith") (Some "(650) 253-0000") None;
    row (Some "Bo") None None None ].

Definition script_env (file : ContactsFile) : Script.Env :=
  {| Script.contacts_file := file;
     Script.person_messages := fun id =>
       if decide (id = "+16502530000") then Some Sample.history else Some [];
     Script.now := Sample.noon_2024_03_10 |}.

End SampleRows.

(** * Properties *)

(** ** Strings *)

Lemma str_app_cons (c : ascii) (s t : string) :
  String c s +:+ t = String c (s +:+ t).
Proof. reflexivity. Qed.

Lemma str_app_nil (t : string) : "" +:+ t = t.
Proof. reflexivity. Qed.

Lemma startswith_spec (p s : string) :
  PyStr.startswith p s = true <-> exists post, s = p +:+ post.
Proof.
  revert s. induction p as [|a p IH]; intros s; simpl.
  - split; [intros _; exists s; reflexivity | reflexivity].
  - destruct s as [|b s].
    + split; [discriminate | intros [post Hpost]; discriminate].
    + destruct (decide (a = b)) as [->|Hne].
      * rewrite IH. split; intros [post Hpost]; exists post.
        -- rewrite str_app_cons. congruence.
        -- rewrite str_app_cons in Hpost. congruence.
      * split; [discriminate | intros [post Hpost]].
        rewrite str_app_cons in Hpost. congruence.
Qed.

Lemma contains_spec (needle hay : string) :
  PyStr.contains needle hay = true
  <-> exists pre post, hay = pre +:+ needle +:+ post.
Proof.
  induction hay as [|c hay IH]; simpl.
  - rewrite orb_false_r, startswith_spec. split.
    + intros [post Hpost]. exists "", post. exact Hpost.
    + intros [pre [post Hpost]]. destruct pre; [|discriminate].
      exists post. exact Hpost.
  - rewrite orb_true_iff, startswith_spec, IH. split.
    + intros [[post Hpost] | [pre [post Hpost]]].
      * exists "", post. exact Hpost.
      * exists (String c pre), post. rewrite str_app_cons. congruence.
    + intros [pre [post Hpost]]. destruct pre as [|c' pre].
      * left. exists post. exact Hpost.
      * right. exists pre, post. rewrite str_app_cons in Hpost. congruence.
Qed.

Lemma name_matches_contains {S : StrLib} (contact name : string) :
  name_matches contact name
  <-> PyStr.contains (str_lower contact) (str_lower name) = true.
Proof. unfold name_matches. symmetry. apply contains_spec. Qed.

Lemma contains_empty (hay : string) : PyStr.contains "" hay = true.
Proof. destruct hay; reflexivity. Qed.

(** ** Directory lookup *)

Lemma load_contacts_map_ok (w : World) (st : State) :
  (load_contacts_map w st).1 = inr tt
  /\ trace (load_contacts_map w st).2 = trace st
  /\ db_conn (load_contacts_map w st).2 = db_conn st.
Proof.
  unfold load_contacts_map.
  destruct (contacts_file w) as [[| err | d] | v]; repeat split.
Qed.

Lemma lookup_contact_numbers_eq {S : StrLib} (w : World) (contact : string)
    (st : State) :
  lookup_contact_numbers w contact st
  = (match global_value (reload_if_empty w st) with
     | Some v => inl (non_object_error contact v)
     | None => inr (lookup_in (contacts_map (reload_if_empty w st)) contact)
     end, reload_if_empty w st).
Proof.
  unfold lookup_contact_numbers, reload_if_empty, lookup_in, mbind, M_bind,
    get_state, mret, M_ret, raise.
  destruct (global_falsy st).
  - destruct (load_contacts_map_ok w st) as [Hok _].
    destruct (load_contacts_map w st) as [[e|[]] st']; simpl in *; [discriminate|].
    destruct (global_value st'); [reflexivity|].
    destruct (dict_get contact (contacts_map st')); reflexivity.
  - simpl. destruct (global_value st); [reflexivity|].
    destruct (dict_get contact (contacts_map st)); reflexivity.
Qed.

Lemma reload_if_empty_trace (w : World) (st : State) :
  trace (reload_if_empty w st) = trace st
  /\ db_conn (reload_if_empty w st) = db_conn st.
Proof.
  unfold reload_if_empty.
  destruct (global_falsy st); [|split; reflexivity].
  apply load_contacts_map_ok.
Qed.

Lemma reload_if_empty_loaded (w : World) (st : State) :
  contacts_map st <> [] -> reload_if_empty w st = st.
Proof.
  unfold reload_if_empty, global_falsy.
  destruct (contacts_map st); [congruence | reflexivity].
Qed.

Lemma global_value_loaded (st : State) :
  contacts_map st <> [] -> global_value st = None.
Proof.
  unfold global_value. destruct (contacts_map st); [congruence | reflexivity].
Qed.

(** The scan stops at the first entry whose name matches, whatever the
    entries before it hold. *)
Lemma scan_partial_first {S : StrLib} (needle : string) (pre post : Directory)
    (name : string) (info : ContactInfo) :
  (forall n i, In (n, i) pre -> PyStr.contains needle (str_lower n) = false) ->
  PyStr.contains needle (str_lower name) = true ->
  scan_partial needle (pre ++ (name, info) :: post) = Some (info_phones info).
Proof.
  intros Hpre Hhit. induction pre as [|[n i] pre IH]; simpl.
  - rewrite Hhit. reflexivity.
  - rewrite (Hpre n i (or_introl eq_refl)). apply IH.
    intros n' i' Hin. apply (Hpre n' i'). right. exact Hin.
Qed.



(** C1, as specified, fails: in the sample directory "Ann Lee" has no
    phone and "Ann Smith" has two; for the contact "ann" the rule of the
    specification would answer with Ann Smith's phones, the program
    answers with Ann Lee's empty list. *)
Lemma substring_rule_as_specified_fails : ~ substring_rule_as_specified.
Proof.
  intros Hspec.
  specialize (Hspec AsciiText.lib (Sample.world FileAbsent true)
                (Sample.loaded Sample.directory)
                "ann" [("Ann Lee", Sample.ann_lee)] [("Bob Stone", Sample.bob)]
                "Ann Smith" Sample.ann_smith eq_refl eq_refl).
  assert (Hrun : (lookup_contact_numbers (S := AsciiText.lib)
                    (Sample.world FileAbsent true) "ann"
                    (Sample.loaded Sample.directory)).1 = inr (Some []))
    by (vm_compute; reflexivity).
  rewrite Hrun in Hspec.
  assert (Hphones : info_phones Sample.ann_smith = ["(650) 253-0000"; "201-555-0123"])
    by (vm_compute; reflexivity).
  rewrite Hphones in Hspec.
  enough (Habs : @inr exn _ (Some (@nil string))
                 = inr (Some ["(650) 253-0000"; "201-555-0123"])) by discriminate.
  apply Hspec.
  - apply name_matches_contains. vm_compute. reflexivity.
  - discriminate.
  - intros n i [Heq|[]] [_ Hne]. inversion Heq; subst. apply Hne.
    vm_compute. reflexivity.
Qed.

(** C1, amended: when no key equals the contact, the entry that answers
    is the first one, in stored order, whose name contains the contact
    ignoring case, with or without phones; the lookup returns that
    entry's phone list and leaves the directory as it is. *)
Theorem lookup_partial_first_name_match
    (S : StrLib) (w : World) (st : State) (contact : string)
    (pre post : Directory) (name : string) (info : ContactInfo) :
  contacts_map st = pre ++ (name, info) :: post ->
  dict_get contact (contacts_map st) = None ->
  name_matches contact name ->
  (forall n i, In (n, i) pre -> ~ name_matches contact n) ->
  lookup_contact_numbers w contact st = (inr (Some (info_phones info)), st).
Proof.
  intros Hmap Hexact Hhit Hpre.
  assert (Hloaded : contacts_map st <> [])
    by (rewrite Hmap; destruct pre; discriminate).
  rewrite lookup_contact_numbers_eq.
  rewrite reload_if_empty_loaded, global_value_loaded by exact Hloaded.
  unfold lookup_in. rewrite Hexact, Hmap.
  rewrite (scan_partial_first (str_lower contact) pre post name info).
  - reflexivity.
  - intros n i Hin. specialize (Hpre n i Hin).
    rewrite name_matches_contains in Hpre.
    destruct (PyStr.contains (str_lower contact) (str_lower n)); congruence.
  - apply name_matches_contains. exact Hhit.
Qed.

Lemma lookup_partial_first_name_match_witness :
  lookup_contact_numbers (S := AsciiText.lib) (Sample.world FileAbsent true) "ann"
    (Sample.loaded Sample.directory)
  = (inr (Some (info_phones Sample.ann_lee)), Sample.loaded Sample.directory).
Proof.
  apply (lookup_partial_first_name_match AsciiText.lib _ _ "ann" []
           [("Ann Smith", Sample.ann_smith); ("Bob Stone", Sample.bob)] "Ann Lee").
  - reflexivity.
  - reflexivity.
  - exists "", " lee". reflexivity.
  - intros n i [].
Defined.

(** ** The stages of [get_chat_transcript] *)

Lemma lookup_in_nonempty {S : StrLib} (d : Directory) (contact : string)
    (phones : list string) :
  lookup_in d contact = Some phones -> d <> [].
Proof. intros Hlook ->. discriminate. Qed.

Section Stages.

Context (w : World) {L : PhoneLib} {S : StrLib}.

Lemma resolve_contact_eq (contact : string) (st : State) :
  resolve_contact w contact st
  = (match global_value (reload_if_empty w st) with
     | Some v => inl (non_object_error contact v)
     | None =>
         match lookup_in (contacts_map (reload_if_empty w st)) contact with
         | Some (p :: ps) => inr (p :: ps)
         | _ => phone_only contact
         end
     end, reload_if_empty w st).
Proof.
  unfold resolve_contact, mbind, M_bind. rewrite lookup_contact_numbers_eq.
  unfold phone_only, raise.
  destruct (global_value (reload_if_empty w st)); [reflexivity|].
  destruct (lookup_in _ contact) as [[|p ps]|]; try reflexivity;
    (destruct (parse contact "US") as [msg|parsed];
     [reflexivity | destruct (is_valid_number parsed); reflexivity]).
Qed.

(** On a global that holds a directory the stage is the lookup with
    the raw-phone fallback behind it. *)
Lemma resolve_contact_directory (contact : string) (st : State) :
  global_value (reload_if_empty w st) = None ->
  resolve_contact w contact st
  = (match lookup_in (contacts_map (reload_if_empty w st)) contact with
     | Some (p :: ps) => inr (p :: ps)
     | _ => phone_only contact
     end, reload_if_empty w st).
Proof. intros Hdir. rewrite resolve_contact_eq, Hdir. reflexivity. Qed.

Lemma resolve_contact_nonempty (contact : string) (st st1 : State)
    (nums : list string) :
  resolve_contact w contact st = (inr nums, st1) -> nums <> [].
Proof.
  rewrite resolve_contact_eq. unfold phone_only. intros Heq.
  destruct (global_value _); [discriminate|].
  destruct (lookup_in _ contact) as [[|p ps]|];
    try (inversion Heq; subst; discriminate);
    (destruct (parse contact "US") as [msg|parsed];
     [discriminate | destruct (is_valid_number parsed)];
     inversion Heq; subst; discriminate).
Qed.

Lemma resolve_contact_state (contact : string) (st : State) :
  (resolve_contact w contact st).2 = reload_if_empty w st.
Proof. rewrite resolve_contact_eq. reflexivity. Qed.

Lemma run_resolve_fails (contact : string) (start_date end_date : option string)
    (st st1 : State) (err : exn) :
  resolve_contact w contact st = (inl err, st1) ->
  get_chat_transcript w contact start_date end_date st = (inl err, st1).
Proof.
  intros Hres. unfold get_chat_transcript, mbind, M_bind. rewrite Hres. reflexivity.
Qed.

Lemma run_normalize_fails (contact : string) (start_date end_date : option string)
    (st st1 : State) (p : string) (ps : list string) (err : exn) :
  resolve_contact w contact st = (inr (p :: ps), st1) ->
  normalize_phone p = inl err ->
  get_chat_transcript w contact start_date end_date st = (inl err, st1).
Proof.
  intros Hres Hnorm. unfold get_chat_transcript, mbind, M_bind, lift_exn, mret, M_ret.
  rewrite Hres, Hnorm. reflexivity.
Qed.

Lemma run_store_missing (contact : string) (start_date end_date : option string)
    (st st1 : State) (p id : string) (ps : list string) :
  resolve_contact w contact st = (inr (p :: ps), st1) ->
  normalize_phone p = inr id ->
  path_exists w (DB_PATH w) = false ->
  get_chat_transcript w contact start_date end_date st
  = (inl (FileNotFoundError ("Messages database not found at: " +:+ DB_PATH w)), st1).
Proof.
  intros Hres Hnorm Hstore.
  unfold get_chat_transcript, mbind, M_bind, lift_exn, mret, M_ret.
  rewrite Hres, Hnorm, Hstore. reflexivity.
Qed.

(** With the store in place the run connects (once per process),
    fetches for the normalised identifier, then filters. *)
Lemma run_store_present (contact : string) (start_date end_date : option string)
    (st st1 : State) (p id : string) (ps : list string) :
  resolve_contact w contact st = (inr (p :: ps), st1) ->
  normalize_phone p = inr id ->
  path_exists w (DB_PATH w) = true ->
  let r := get_chat_transcript w contact start_date end_date st in
  contacts_map r.2 = contacts_map st1
  /\ trace r.2 = trace st1
                 ++ match db_conn st1 with
                    | None => [EvConnect (DB_PATH w)]
                    | Some _ => []
                    end
                 ++ [EvFetch id [id]]
  /\ r.1 = match resolve_window w start_date end_date with
           | inl err => inl err
           | inr window =>
               match filter_loop window.1 window.2 (message_list w id [id]) [] with
               | inl err => inl err
               | inr out => inr {| Out.messages := out; Out.total_count := length out |}
               end
           end.
Proof.
  intros Hres Hnorm Hstore.
  unfold get_chat_transcript, mbind, M_bind, lift_exn, mret, M_ret.
  rewrite Hres, Hnorm, Hstore. simpl.
  unfold get_connection, fetch_messages, mbind, M_bind, get_state, put_state,
    log_event, mret, M_ret.
  destruct (db_conn st1) as [path|] eqn:Hconn; simpl;
    destruct (resolve_window w start_date end_date) as [err|window]; simpl;
    try (destruct (filter_loop window.1 window.2 (message_list w id [id]) [])
           as [err|out]; simpl);
    rewrite <- ?app_assoc; repeat split; reflexivity.
Qed.


End Stages.

(** ** The empty contact string *)

(** C10, as specified, fails: the sample directory reduced to "Ann Lee",
    who has an e-mail address and no phone, is not empty; the contact ""
    matches her entry, the empty phone list sends the call to the
    raw-phone fallback, and "" is not a phone number. *)
Lemma empty_contact_as_specified_fails : ~ empty_contact_as_specified.
Proof.
  intros Hspec.
  apply (Hspec (Sample.world FileAbsent true) Nanp.lib AsciiText.lib
           (Sample.loaded [("Ann Lee", Sample.ann_lee)]) None None
           (ValueError (not_found_msg ""))).
  - discriminate.
  - vm_compute. reflexivity.
  - left. reflexivity.
Qed.

(** C10, amended: with a loaded directory whose first entry is
    [(name, info)] and in which no name is the empty string, the lookup of
    "" returns the phone list of that first entry.  Resolution succeeds
    with that list when it is not empty; when it is empty the call goes on
    to the raw-phone fallback on "". *)
Theorem empty_contact_first_entry
    (w : World) (L : PhoneLib) (S : StrLib) (st : State)
    (name : string) (info : ContactInfo) (rest : Directory) :
  contacts_map st = (name, info) :: rest ->
  dict_get "" (contacts_map st) = None ->
  lookup_contact_numbers w "" st = (inr (Some (info_phones info)), st)
  /\ (info_phones info <> [] ->
      resolve_contact w "" st = (inr (info_phones info), st))
  /\ (info_phones info = [] ->
      resolve_contact w "" st = (phone_only "", st)).
Proof.
  intros Hmap Hexact.
  assert (Hloaded : reload_if_empty w st = st)
    by (apply reload_if_empty_loaded; rewrite Hmap; discriminate).
  assert (Hdir : global_value st = None)
    by (apply global_value_loaded; rewrite Hmap; discriminate).
  assert (Hlook : lookup_in (contacts_map st) "" = Some (info_phones info)).
  { unfold lookup_in. rewrite Hexact, Hmap. simpl.
    rewrite str_lower_empty, contains_empty. reflexivity. }
  split; [|split].
  - rewrite lookup_contact_numbers_eq, Hloaded, Hdir, Hlook. reflexivity.
  - intros Hne. rewrite resolve_contact_eq, Hloaded, Hdir, Hlook.
    destruct (info_phones info); [congruence | reflexivity].
  - intros Hnil. rewrite resolve_contact_eq, Hloaded, Hdir, Hlook, Hnil. reflexivity.
Qed.

Lemma empty_contact_first_entry_witness :
  lookup_contact_numbers (S := AsciiText.lib) (Sample.world FileAbsent true) ""
    (Sample.loaded Sample.directory)
  = (inr (Some (info_phones Sample.ann_lee)), Sample.loaded Sample.directory)
  /\ resolve_contact (L := Nanp.lib) (S := AsciiText.lib)
       (Sample.world FileAbsent true) "" (Sample.loaded Sample.directory)
     = (phone_only (L := Nanp.lib) "", Sample.loaded Sample.directory).
Proof.
  destruct (empty_contact_first_entry (Sample.world FileAbsent true) Nanp.lib
              AsciiText.lib (Sample.loaded Sample.directory) "Ann Lee" Sample.ann_lee
              [("Ann Smith", Sample.ann_smith); ("Bob Stone", Sample.bob)]
              eq_refl eq_refl) as [Hlook [_ Hempty]].
  split; [exact Hlook | apply Hempty; vm_compute; reflexivity].
Defined.

(** ** Unknown contacts *)



(** ** What every run leaves behind *)

Section Runs.

Context (w : World) {L : PhoneLib} {S : StrLib}.

Lemma normalize_phone_inr (phone id : string) :
  normalize_phone phone = inr id ->
  exists p, parse phone "US" = inr p /\ is_valid_number p = true
            /\ id = format_e164 p.
Proof.
  unfold normalize_phone. intros Hnorm.
  destruct (parse phone "US") as [msg|p]; [discriminate|].
  destruct (is_valid_number p) eqn:Hvalid; simpl in Hnorm; [|discriminate].
  exists p. split; [reflexivity | split; [exact Hvalid | congruence]].
Qed.

(** The stage at which a run stops decides what it has logged. *)
Lemma run_cases (contact : string) (start_date end_date : option string)
    (st : State) :
  let r := get_chat_transcript w contact start_date end_date st in
  let st1 := reload_if_empty w st in
  contacts_map r.2 = contacts_map st1
  /\ ((exists err, r.1 = inl err /\ trace r.2 = trace st)
      \/ (exists p ps id,
            resolve_contact w contact st = (inr (p :: ps), st1)
            /\ normalize_phone p = inr id
            /\ path_exists w (DB_PATH w) = true
            /\ trace r.2 = trace st
                           ++ match db_conn st with
                              | None => [EvConnect (DB_PATH w)]
                              | Some _ => []
                              end
                           ++ [EvFetch id [id]])).
Proof.
  intros r st1. subst r st1.
  destruct (reload_if_empty_trace w st) as [Htrace Hconn].
  destruct (resolve_contact w contact st) as [[err|nums] st1] eqn:Hres.
  - pose proof (resolve_contact_state w contact st) as Hst. rewrite Hres in Hst.
    simpl in Hst. subst st1.
    rewrite (run_resolve_fails w contact start_date end_date st _ err Hres).
    simpl. split; [reflexivity | left; eauto].
  - pose proof (resolve_contact_state w contact st) as Hst. rewrite Hres in Hst.
    simpl in Hst. subst st1.
    destruct nums as [|p ps];
      [exfalso; exact (resolve_contact_nonempty w contact st _ [] Hres eq_refl)|].
    destruct (normalize_phone p) as [err|id] eqn:Hnorm.
    + rewrite (run_normalize_fails w contact start_date end_date st _ p ps err Hres Hnorm).
      simpl. split; [reflexivity | left; eauto].
    + destruct (path_exists w (DB_PATH w)) eqn:Hstore.
      * destruct (run_store_present w contact start_date end_date st _ p id ps
                    Hres Hnorm Hstore) as [Hmap [Htr _]].
        split; [exact Hmap | right].
        exists p, ps, id. rewrite Htr, Htrace, Hconn.
        split; [reflexivity | split; [exact Hnorm | split; reflexivity]].
      * rewrite (run_store_missing w contact start_date end_date st _ p id ps
                   Hres Hnorm Hstore).
        simpl. split; [reflexivity | left; eauto].
Qed.



End Runs.

(** ** A broken directory file *)




(** ** The message store *)

(** C8: once the contact is resolved and its first number normalised, a
    store path that does not exist ends the call with
    [FileNotFoundError] naming that path as [pathlib] writes it; the path
    is the one made from the text of [SQLITE_DB_PATH] when the variable is
    set and the default under the home directory otherwise, and the run
    has logged nothing: neither a connection nor a fetch. *)
Theorem store_missing_raises
    (w : World) (L : PhoneLib) (S : StrLib) (contact : string)
    (start_date end_date : option string) (st st1 : State)
    (p id : string) (ps : list string) :
  resolve_contact w contact st = (inr (p :: ps), st1) ->
  normalize_phone p = inr id ->
  path_exists w (DB_PATH w) = false ->
  get_chat_transcript w contact start_date end_date st
  = (inl (FileNotFoundError ("Messages database not found at: " +:+ DB_PATH w)), st1)
  /\ trace st1 = trace st
  /\ DB_PATH w
     = PyPath.to_string
         match SQLITE_DB_PATH w with
         | Some text => PyPath.of_string text
         | None =>
             PyPath.joinpath
               (PyPath.joinpath
                  (PyPath.joinpath (PyPath.of_string (home w)) "Library")
                  "Messages")
               "chat.db"
         end.
Proof.
  intros Hres Hnorm Hstore. split; [|split].
  - exact (run_store_missing w contact start_date end_date st st1 p id ps
             Hres Hnorm Hstore).
  - pose proof (resolve_contact_state w contact st) as Hst.
    rewrite Hres in Hst. simpl in Hst. subst st1.
    apply reload_if_empty_trace.
  - reflexivity.
Qed.

Lemma store_missing_raises_witness :
  let w := Sample.world_of FileAbsent (Some "/nonexistent//override/./chat.db/") false in
  get_chat_transcript (L := Nanp.lib) (S := AsciiText.lib) w "Bob" None None
    (Sample.loaded Sample.directory)
  = (inl (FileNotFoundError
            "Messages database not found at: /nonexistent/override/chat.db"),
     Sample.loaded Sample.directory)
  /\ DB_PATH (Sample.world FileAbsent false) = "/Users/me/Library/Messages/chat.db".
Proof.
  intros w. split; [|reflexivity].
  destruct (store_missing_raises w Nanp.lib AsciiText.lib "Bob"
              None None (Sample.loaded Sample.directory) (Sample.loaded Sample.directory)
              "+1 201 555 0123" "+12015550123" []) as [Hrun _].
  - vm_compute. reflexivity.
  - vm_compute. reflexivity.
  - reflexivity.
  - exact Hrun.
Defined.

(** ** What the fetcher is given *)

(** C6: whatever a run logs beyond the trace it started with, a fetch in
    it carries the E.164 text of a valid number, and that text twice
    (as the person and as the only number); when the lookup answered with
    a non-empty phone list, the number is the one parsed from the first
    phone of that list.  A run that returns a result has fetched exactly
    once. *)
Theorem fetch_gets_canonical_id
    (w : World) (L : PhoneLib) (S : StrLib) (contact : string)
    (start_date end_date : option string) (st : State) (evs : list Event) :
  new_events st (get_chat_transcript w contact start_date end_date st).2 evs ->
  (forall id ns, In (EvFetch id ns) evs ->
     ns = [id]
     /\ exists p, is_valid_number p = true /\ id = format_e164 p
                  /\ forall ph phs,
                       lookup_in (contacts_map (reload_if_empty w st)) contact
                       = Some (ph :: phs) ->
                       parse ph "US" = inr p)
  /\ (forall r, (get_chat_transcript w contact start_date end_date st).1 = inr r ->
        exists id, filter is_fetch evs = [EvFetch id [id]]).
Proof.
  unfold new_events. intros Hevs.
  destruct (run_cases w contact start_date end_date st) as [_ Hcases]. simpl in Hcases.
  destruct Hcases as [[err [Herr Htr]] | [p [ps [id [Hres [Hnorm [Hstore Htr]]]]]]].
  - rewrite Htr in Hevs.
    assert (evs = []) as ->.
    { rewrite <- (app_nil_r (trace st)) in Hevs at 1.
      apply app_inv_head in Hevs. congruence. }
    split; [intros id ns [] | intros r Hr; congruence].
  - rewrite Htr in Hevs. apply app_inv_head in Hevs. subst evs.
    destruct (normalize_phone_inr p id Hnorm) as [num [Hparse [Hvalid Hid]]].
    split.
    + intros id' ns Hin.
      assert (Hev : EvFetch id' ns = EvFetch id [id]).
      { apply in_app_or in Hin. destruct Hin as [Hin|[Hin|[]]]; [|congruence].
        destruct (db_conn st); [destruct Hin | destruct Hin as [Hin|[]]; discriminate]. }
      inversion Hev; subst id' ns. split; [reflexivity|].
      exists num. split; [exact Hvalid | split; [exact Hid |]].
      intros ph phs Hlook.
      rewrite resolve_contact_directory, Hlook in Hres
        by (apply global_value_loaded; exact (lookup_in_nonempty _ _ _ Hlook)).
      inversion Hres; subst. exact Hparse.
    + intros r _. exists id. destruct (db_conn st); reflexivity.
Qed.

Lemma fetch_gets_canonical_id_witness :
  let w := Sample.world (FileHolds Sample.directory) true in
  (forall id ns,
     In (EvFetch id ns)
        [EvConnect "/Users/me/Library/Messages/chat.db";
         EvFetch "+16502530000" ["+16502530000"]] ->
     ns = [id]
     /\ exists p, is_valid_number (PhoneLib := Nanp.lib) p = true
                  /\ id = format_e164 p
                  /\ forall ph phs,
                       lookup_in (S := AsciiText.lib)
                         (contacts_map (reload_if_empty w initial_state)) "smith"
                       = Some (ph :: phs) ->
                       parse ph "US" = inr p)
  /\ (forall r, (get_chat_transcript (L := Nanp.lib) (S := AsciiText.lib) w "smith"
                   None None initial_state).1 = inr r ->
        exists id, filter is_fetch
                     [EvConnect "/Users/me/Library/Messages/chat.db";
                      EvFetch "+16502530000" ["+16502530000"]]
                   = [EvFetch id [id]]).
Proof.
  intros w.
  apply (fetch_gets_canonical_id w Nanp.lib AsciiText.lib "smith" None None
           initial_state).
  vm_compute. reflexivity.
Defined.

(** ** Dates read from strings are midnights *)

Lemma make_date_midnight (y m d : Z) (dt : PyDate.datetime) :
  PyDate.midnight <$> PyDate.make_date y m d = Some dt ->
  dt = PyDate.midnight (PyDate.dt_date dt)
  /\ PyDate.valid_date (PyDate.dt_date dt) = true.
Proof.
  unfold PyDate.make_date.
  destruct (PyDate.valid_date (PyDate.mkDate y m d)) eqn:Hvalid; simpl; [|discriminate].
  intros Heq. inversion Heq; subst. split; [reflexivity | exact Hvalid].
Qed.

Lemma strptime_midnight (s : string) (dt : PyDate.datetime) :
  PyDate.strptime_ymd s = Some dt ->
  dt = PyDate.midnight (PyDate.dt_date dt)
  /\ PyDate.valid_date (PyDate.dt_date dt) = true.
Proof.
  unfold PyDate.strptime_ymd.
  destruct (PyDate.split_dash s) as [|y [|m [|d [|? ?]]]]; try discriminate.
  case_decide; [|discriminate].
  destruct (PyDate.digits_val y) as [yv|]; [|discriminate].
  destruct (PyDate.digits_val m) as [mv|]; [|discriminate].
  destruct (PyDate.day_field d) as [dv|]; [|discriminate].
  simpl. apply make_date_midnight.
Qed.

Lemma fromisoformat_midnight (s : string) (dt : PyDate.datetime) :
  PyDate.fromisoformat s = Some dt ->
  dt = PyDate.midnight (PyDate.dt_date dt)
  /\ PyDate.valid_date (PyDate.dt_date dt) = true.
Proof.
  unfold PyDate.fromisoformat.
  case_decide; [|discriminate].
  destruct (PyDate.split_dash s) as [|y [|m [|d [|? ?]]]]; try discriminate.
  case_decide; [|discriminate].
  destruct (PyDate.digits_val y) as [yv|]; [|discriminate].
  destruct (PyDate.digits_val m) as [mv|]; [|discriminate].
  destruct (PyDate.digits_val d) as [dv|]; [|discriminate].
  simpl. apply make_date_midnight.
Qed.

Lemma date_lt_irrefl (d : PyDate.date) : PyDate.date_lt d d = false.
Proof.
  unfold PyDate.date_lt.
  rewrite !Z.ltb_irrefl, !Z.eqb_refl. reflexivity.
Qed.

Lemma date_eqb_lt (a b : PyDate.date) :
  PyDate.date_eqb a b = true -> PyDate.date_lt a b = false.
Proof.
  unfold PyDate.date_eqb, PyDate.date_lt. intros Heq.
  apply andb_true_iff in Heq. destruct Heq as [Heq Hd].
  apply andb_true_iff in Heq. destruct Heq as [Hy Hm].
  apply Z.eqb_eq in Hy, Hm, Hd. rewrite Hy, Hm, Hd.
  rewrite !Z.ltb_irrefl, !Z.eqb_refl. reflexivity.
Qed.

Lemma midnight_lt (a b : PyDate.date) :
  PyDate.datetime_lt (PyDate.midnight a) (PyDate.midnight b) = PyDate.date_lt a b.
Proof.
  unfold PyDate.datetime_lt. simpl. rewrite andb_false_r, orb_false_r. reflexivity.
Qed.

(** ** The filter loop *)

Lemma check_bound_parsed (bound : option string) (b : option PyDate.date)
    (outside : PyDate.datetime -> bool) :
  parse_bound bound = Some b ->
  check_bound bound outside
  = inr (match b with
         | Some d => negb (outside (PyDate.midnight d))
         | None => true
         end).
Proof.
  unfold parse_bound, check_bound.
  destruct (PyStr.truthy bound); [|intros Heq; inversion Heq; reflexivity].
  destruct (PyDate.fromisoformat (default "" bound)) as [dt|] eqn:Hiso;
    simpl; [|discriminate].
  intros Heq. inversion Heq; subst.
  destruct (fromisoformat_midnight _ _ Hiso) as [Hmid _]. rewrite <- Hmid. reflexivity.
Qed.

Lemma keep_message_in_window (start_date end_date : option string)
    (s e : option PyDate.date) (msg : Raw.Message) (d : PyDate.date) :
  parse_bound start_date = Some s ->
  parse_bound end_date = Some e ->
  msg_day msg = Some d ->
  keep_message start_date end_date msg = inr (in_window s e d).
Proof.
  intros Hs He Hday. unfold msg_day in Hday. unfold keep_message.
  destruct (PyDate.strptime_ymd (PyStr.take 10 (Raw.date msg))) as [dt|] eqn:Hparse;
    [|discriminate].
  simpl in Hday. inversion Hday; subst d.
  destruct (strptime_midnight _ _ Hparse) as [Hmid _].
  rewrite (check_bound_parsed _ _ _ Hs), (check_bound_parsed _ _ _ He).
  rewrite Hmid. unfold in_window, PyDate.date_le.
  destruct s as [sd|]; destruct e as [ed|]; rewrite ?midnight_lt; simpl;
    try destruct (PyDate.date_lt (PyDate.dt_date dt) sd);
    try destruct (PyDate.date_lt ed (PyDate.dt_date dt)); reflexivity.
Qed.

Lemma filter_loop_acc (start_date end_date : option string)
    (msgs : list Raw.Message) (acc : list Out.TranscriptRecord) :
  filter_loop start_date end_date msgs acc
  = match filter_loop start_date end_date msgs [] with
    | inl err => inl err
    | inr out => inr (acc ++ out)
    end.
Proof.
  revert acc. induction msgs as [|msg msgs IH]; intros acc; simpl.
  - rewrite app_nil_r. reflexivity.
  - destruct (keep_message start_date end_date msg) as [err|[|]]; [reflexivity | |].
    + rewrite (IH (acc ++ [shape_message msg])), (IH [shape_message msg]).
      destruct (filter_loop start_date end_date msgs []); [reflexivity|].
      rewrite <- app_assoc. reflexivity.
    + apply IH.
Qed.

(** A loop that ends without raising has kept, in order, the shaped
    form of exactly the messages that pass [keep_message]. *)
Lemma filter_loop_result (start_date end_date : option string)
    (msgs : list Raw.Message) (out : list Out.TranscriptRecord) :
  filter_loop start_date end_date msgs [] = inr out ->
  out = shape_message <$> List.filter (retained start_date end_date) msgs.
Proof.
  revert out. induction msgs as [|msg msgs IH]; intros out; simpl.
  - intros Heq. inversion Heq. reflexivity.
  - unfold retained at 1.
    destruct (keep_message start_date end_date msg) as [err|[|]]; [discriminate | |].
    + rewrite filter_loop_acc.
      destruct (filter_loop start_date end_date msgs []) as [err|rest]; [discriminate|].
      intros Heq. inversion Heq; subst. rewrite (IH rest eq_refl). reflexivity.
    + apply IH.
Qed.

(** The loop raises on no message whose timestamp starts with a date,
    provided the bounds that are set are ISO dates. *)
Lemma filter_loop_total (start_date end_date : option string)
    (s e : option PyDate.date) (msgs : list Raw.Message) :
  parse_bound start_date = Some s ->
  parse_bound end_date = Some e ->
  Forall (fun msg => is_Some (msg_day msg)) msgs ->
  filter_loop start_date end_date msgs []
  = inr (shape_message <$> List.filter (msg_in_window s e) msgs).
Proof.
  intros Hs He Hall. induction Hall as [|msg msgs [d Hday] Hall IH]; simpl.
  - reflexivity.
  - rewrite (keep_message_in_window _ _ s e msg d Hs He Hday).
    unfold msg_in_window at 1. rewrite Hday.
    destruct (in_window s e d).
    + rewrite filter_loop_acc, IH. reflexivity.
    + exact IH.
Qed.

(** ** The order on calendar days *)

Lemma date_lt_iff (a b : PyDate.date) :
  PyDate.date_lt a b = true
  <-> (PyDate.year a < PyDate.year b
       \/ (PyDate.year a = PyDate.year b
           /\ (PyDate.month a < PyDate.month b
               \/ (PyDate.month a = PyDate.month b
                   /\ PyDate.day a < PyDate.day b))))%Z.
Proof.
  unfold PyDate.date_lt.
  rewrite !orb_true_iff, !andb_true_iff, !orb_true_iff, !andb_true_iff,
    !Z.ltb_lt, !Z.eqb_eq.
  reflexivity.
Qed.

Lemma date_le_iff (a b : PyDate.date) :
  PyDate.date_le a b = true <-> ~ PyDate.date_lt b a = true.
Proof.
  unfold PyDate.date_le. destruct (PyDate.date_lt b a); simpl; split; congruence.
Qed.

Lemma days_in_month_bounds (y m : Z) : (28 <= PyDate.days_in_month y m <= 31)%Z.
Proof.
  unfold PyDate.days_in_month.
  destruct (m =? 2)%Z; [destruct (PyDate.is_leap y); lia|].
  destruct ((m =? 4) || (m =? 6) || (m =? 9) || (m =? 11))%Z; lia.
Qed.

Lemma valid_date_iff (d : PyDate.date) :
  PyDate.valid_date d = true
  <-> (1 <= PyDate.year d <= 9999 /\ 1 <= PyDate.month d <= 12
       /\ 1 <= PyDate.day d <= PyDate.days_in_month (PyDate.year d) (PyDate.month d))%Z.
Proof.
  unfold PyDate.valid_date, PyDate.MINYEAR, PyDate.MAXYEAR.
  rewrite !andb_true_iff, !Z.leb_le. tauto.
Qed.

Lemma date_eq_fields (a b : PyDate.date) :
  PyDate.year a = PyDate.year b -> PyDate.month a = PyDate.month b ->
  PyDate.day a = PyDate.day b -> a = b.
Proof. destruct a, b; simpl; congruence. Qed.

(** Of two days one is earlier, or they are the same day. *)
Lemma date_trichotomy (a b : PyDate.date) :
  PyDate.date_lt a b = true \/ a = b \/ PyDate.date_lt b a = true.
Proof.
  rewrite !date_lt_iff.
  destruct (Z.lt_trichotomy (PyDate.year a) (PyDate.year b)) as [?|[Hy|?]];
    [lia | | lia].
  destruct (Z.lt_trichotomy (PyDate.month a) (PyDate.month b)) as [?|[Hm|?]];
    [lia | | lia].
  destruct (Z.lt_trichotomy (PyDate.day a) (PyDate.day b)) as [?|[Hd|?]];
    [lia | | lia].
  right; left. apply date_eq_fields; assumption.
Qed.

Lemma date_lt_trans (a b c : PyDate.date) :
  PyDate.date_lt a b = true -> PyDate.date_lt b c = true -> PyDate.date_lt a c = true.
Proof. rewrite !date_lt_iff. lia. Qed.

Lemma date_le_refl (d : PyDate.date) : PyDate.date_le d d = true.
Proof. unfold PyDate.date_le. rewrite date_lt_irrefl. reflexivity. Qed.

Lemma date_le_lt_trans (a b c : PyDate.date) :
  PyDate.date_le a b = true -> PyDate.date_lt b c = true -> PyDate.date_lt a c = true.
Proof. rewrite date_le_iff, !date_lt_iff. lia. Qed.

Lemma date_le_trans (a b c : PyDate.date) :
  PyDate.date_le a b = true -> PyDate.date_le b c = true -> PyDate.date_le a c = true.
Proof. rewrite !date_le_iff, !date_lt_iff. lia. Qed.

Lemma date_lt_le (a b : PyDate.date) :
  PyDate.date_lt a b = true -> PyDate.date_le a b = true.
Proof. rewrite date_le_iff, !date_lt_iff. lia. Qed.

(** The day before is earlier. *)
Lemma prev_day_lt (d : PyDate.date) :
  PyDate.date_lt (PyDate.prev_day d) d = true.
Proof.
  rewrite date_lt_iff. unfold PyDate.prev_day.
  destruct (Z.ltb_spec 1 (PyDate.day d)); simpl; [lia|].
  destruct (Z.ltb_spec 1 (PyDate.month d)); simpl; lia.
Qed.

Lemma prev_day_year (d : PyDate.date) :
  (PyDate.year d - 1 <= PyDate.year (PyDate.prev_day d) <= PyDate.year d)%Z.
Proof.
  unfold PyDate.prev_day.
  destruct (1 <? PyDate.day d)%Z; simpl; [lia|].
  destruct (1 <? PyDate.month d)%Z; simpl; lia.
Qed.

(** The day before a date is a date, unless the years run out. *)
Lemma prev_day_valid (d : PyDate.date) :
  PyDate.valid_date d = true ->
  (1 <= PyDate.year (PyDate.prev_day d))%Z ->
  PyDate.valid_date (PyDate.prev_day d) = true.
Proof.
  rewrite !valid_date_iff. unfold PyDate.prev_day.
  destruct (Z.ltb_spec 1 (PyDate.day d)); simpl; [lia|].
  destruct (Z.ltb_spec 1 (PyDate.month d)); simpl.
  - pose proof (days_in_month_bounds (PyDate.year d) (PyDate.month d - 1)). lia.
  - intros Hd Hy. change (PyDate.days_in_month (PyDate.year d - 1) 12) with 31%Z. lia.
Qed.

(** No date lies strictly between a day and the day before it. *)
Lemma prev_day_pred (d x : PyDate.date) :
  PyDate.valid_date d = true -> PyDate.valid_date x = true ->
  PyDate.date_lt x d = true ->
  PyDate.date_le x (PyDate.prev_day d) = true.
Proof.
  rewrite !valid_date_iff, date_le_iff, !date_lt_iff. unfold PyDate.prev_day.
  intros Hd Hx Hlt.
  pose proof (days_in_month_bounds (PyDate.year x) (PyDate.month x)) as Hdim.
  destruct (Z.ltb_spec 1 (PyDate.day d)); simpl; [lia|].
  destruct (Z.ltb_spec 1 (PyDate.month d)); simpl; [|lia].
  assert (Hsame : PyDate.year x = PyDate.year d ->
                  PyDate.month x = (PyDate.month d - 1)%Z ->
                  PyDate.days_in_month (PyDate.year x) (PyDate.month x)
                  = PyDate.days_in_month (PyDate.year d) (PyDate.month d - 1))
    by (intros -> ->; reflexivity).
  lia.
Qed.

Lemma days_before_le (k : nat) (d : PyDate.date) :
  PyDate.date_le (PyDate.days_before k d) d = true.
Proof.
  revert d. induction k as [|k IH]; intros d; simpl.
  - apply date_le_refl.
  - apply date_lt_le. apply (date_le_lt_trans _ (PyDate.prev_day d)).
    + apply IH.
    + apply prev_day_lt.
Qed.

Lemma days_before_year (k : nat) (d : PyDate.date) :
  (PyDate.year (PyDate.days_before k d) <= PyDate.year d)%Z.
Proof.
  revert d. induction k as [|k IH]; intros d; simpl; [lia|].
  specialize (IH (PyDate.prev_day d)). pose proof (prev_day_year d). lia.
Qed.

Lemma days_ending_succ (n : nat) (d : PyDate.date) :
  days_ending (S n) d = d :: days_ending n (PyDate.prev_day d).
Proof.
  unfold days_ending. simpl. f_equal.
  rewrite <- fmap_S_seq, <- list_fmap_compose. reflexivity.
Qed.

Lemma days_ending_le (n : nat) (d x : PyDate.date) :
  In x (days_ending n d) -> PyDate.date_le x d = true.
Proof.
  unfold days_ending. intros Hin. apply list_elem_of_In in Hin.
  apply list_elem_of_fmap in Hin. destruct Hin as [k [-> _]]. apply days_before_le.
Qed.

(** The days from [k] days before [d] up to [d] are the [k+1] days
    ending with [d], each once. *)
Lemma days_between (k : nat) (d x : PyDate.date) :
  PyDate.valid_date d = true ->
  (1 <= PyDate.year (PyDate.days_before k d))%Z ->
  PyDate.valid_date x = true ->
  (PyDate.date_le (PyDate.days_before k d) x && PyDate.date_le x d = true
   <-> In x (days_ending (S k) d)).
Proof.
  revert d. induction k as [|k IH]; intros d Hd Hyear Hx.
  - simpl. rewrite andb_true_iff, !date_le_iff. split.
    + intros [H1 H2]. left.
      destruct (date_trichotomy d x) as [?|[?|?]]; congruence.
    + intros [->|[]]. rewrite date_lt_irrefl. split; discriminate.
  - rewrite days_ending_succ. simpl PyDate.days_before in *.
    assert (Hprev : PyDate.valid_date (PyDate.prev_day d) = true).
    { apply prev_day_valid; [exact Hd|].
      pose proof (days_before_year k (PyDate.prev_day d)). lia. }
    specialize (IH (PyDate.prev_day d) Hprev Hyear Hx).
    rewrite andb_true_iff in *. split.
    + intros [Hlow Hhigh].
      destruct (date_trichotomy x d) as [Hlt|[->|Hgt]].
      * right. apply IH. split; [exact Hlow|].
        apply prev_day_pred; assumption.
      * left. reflexivity.
      * apply date_le_iff in Hhigh. congruence.
    + intros [<-|Hin].
      * split; [|apply date_le_refl].
        apply (days_before_le (S k) d).
      * apply IH in Hin. destruct Hin as [Hlow Hhigh].
        split; [exact Hlow|].
        apply date_lt_le. apply (date_le_lt_trans _ (PyDate.prev_day d));
          [exact Hhigh | apply prev_day_lt].
Qed.

Lemma days_ending_NoDup (n : nat) (d : PyDate.date) : NoDup (days_ending n d).
Proof.
  revert d. induction n as [|n IH]; intros d.
  - constructor.
  - rewrite days_ending_succ. constructor; [|apply IH].
    intros Hin. apply list_elem_of_In in Hin. apply days_ending_le in Hin.
    apply date_le_iff in Hin. apply Hin. apply prev_day_lt.
Qed.

(** ** Writing a date and reading it back *)

Lemma digit_char_val (n : Z) :
  (0 <= n <= 9)%Z ->
  PyDate.digit_val (PyDate.digit_char n) = Some n /\ PyDate.digit_char n <> "-"%char.
Proof.
  intros Hn. rewrite <- (Z2Nat.id n) by lia.
  assert (Hk : (Z.to_nat n < 10)%nat) by lia.
  revert Hk. generalize (Z.to_nat n). intros k Hk.
  do 10 (destruct k as [|k];
         [split; [vm_compute; reflexivity | vm_compute; discriminate]|]).
  lia.
Qed.

Lemma split_dash_from_digit (cur r : string) (n : Z) :
  (0 <= n <= 9)%Z ->
  PyDate.split_dash_from cur (String (PyDate.digit_char n) r)
  = PyDate.split_dash_from (String (PyDate.digit_char n) cur) r.
Proof.
  intros Hn. destruct (digit_char_val n Hn) as [_ Hne].
  change (PyDate.split_dash_from cur (String (PyDate.digit_char n) r))
    with (if decide (PyDate.digit_char n = "-"%char)
          then String.rev cur :: PyDate.split_dash_from "" r
          else PyDate.split_dash_from (String (PyDate.digit_char n) cur) r).
  case_decide; [contradiction | reflexivity].
Qed.

Lemma split_dash_from_dash (cur r : string) :
  PyDate.split_dash_from cur (String "-" r)
  = String.rev cur :: PyDate.split_dash_from "" r.
Proof. reflexivity. Qed.

Lemma split_dash_from_end (cur : string) :
  PyDate.split_dash_from cur "" = [String.rev cur].
Proof. reflexivity. Qed.

Lemma digits_val_2 (x y : ascii) (a b : Z) :
  PyDate.digit_val x = Some a -> PyDate.digit_val y = Some b ->
  PyDate.digits_val (String x (String y "")) = Some (a * 10 + b)%Z.
Proof. intros Hx Hy. simpl. rewrite Hx, Hy. reflexivity. Qed.

Lemma digits_val_4 (x y z t : ascii) (a b c d : Z) :
  PyDate.digit_val x = Some a -> PyDate.digit_val y = Some b ->
  PyDate.digit_val z = Some c -> PyDate.digit_val t = Some d ->
  PyDate.digits_val (String x (String y (String z (String t ""))))
  = Some (((a * 10 + b) * 10 + c) * 10 + d)%Z.
Proof. intros Hx Hy Hz Ht. simpl. rewrite Hx, Hy, Hz, Ht. reflexivity. Qed.

Lemma fromisoformat_digits (a b c d e f g h : Z) :
  (0 <= a <= 9)%Z -> (0 <= b <= 9)%Z -> (0 <= c <= 9)%Z -> (0 <= d <= 9)%Z ->
  (0 <= e <= 9)%Z -> (0 <= f <= 9)%Z -> (0 <= g <= 9)%Z -> (0 <= h <= 9)%Z ->
  let dc := PyDate.digit_char in
  PyDate.fromisoformat
    (String (dc a) (String (dc b) (String (dc c) (String (dc d)
      (String "-" (String (dc e) (String (dc f)
        (String "-" (String (dc g) (String (dc h) ""))))))))))
  = PyDate.midnight <$> PyDate.make_date (((a * 10 + b) * 10 + c) * 10 + d)
                          (e * 10 + f) (g * 10 + h).
Proof.
  intros Ha Hb Hc Hd He Hf Hg Hh dc. subst dc.
  unfold PyDate.fromisoformat, PyDate.split_dash.
  rewrite !split_dash_from_digit by assumption.
  rewrite split_dash_from_dash.
  rewrite !split_dash_from_digit by assumption.
  rewrite split_dash_from_dash.
  rewrite !split_dash_from_digit by assumption.
  rewrite split_dash_from_end.
  destruct (digit_char_val a Ha) as [Hva _]. destruct (digit_char_val b Hb) as [Hvb _].
  destruct (digit_char_val c Hc) as [Hvc _]. destruct (digit_char_val d Hd) as [Hvd _].
  destruct (digit_char_val e He) as [Hve _]. destruct (digit_char_val f Hf) as [Hvf _].
  destruct (digit_char_val g Hg) as [Hvg _]. destruct (digit_char_val h Hh) as [Hvh _].
  revert Hva Hvb Hvc Hvd Hve Hvf Hvg Hvh.
  generalize (PyDate.digit_char a) (PyDate.digit_char b) (PyDate.digit_char c)
    (PyDate.digit_char d) (PyDate.digit_char e) (PyDate.digit_char f)
    (PyDate.digit_char g) (PyDate.digit_char h).
  intros ca cb cc cd ce cf cg ch Hva Hvb Hvc Hvd Hve Hvf Hvg Hvh.
  change (String.rev (String cd (String cc (String cb (String ca "")))))
    with (String ca (String cb (String cc (String cd "")))).
  change (String.rev (String cf (String ce ""))) with (String ce (String cf "")).
  change (String.rev (String ch (String cg ""))) with (String cg (String ch "")).
  rewrite (digits_val_4 _ _ _ _ _ _ _ _ Hva Hvb Hvc Hvd),
    (digits_val_2 _ _ _ _ Hve Hvf), (digits_val_2 _ _ _ _ Hvg Hvh).
  case_decide as Hlen; [|exfalso; apply Hlen; reflexivity].
  case_decide as Hlens; [|exfalso; apply Hlens; split; reflexivity].
  reflexivity.
Qed.

Lemma pad_digits (n : Z) :
  (0 <= n <= 9999)%Z ->
  (0 <= n / 1000 mod 10 <= 9 /\ 0 <= n / 100 mod 10 <= 9
   /\ 0 <= n / 10 mod 10 <= 9 /\ 0 <= n mod 10 <= 9
   /\ ((n / 1000 mod 10 * 10 + n / 100 mod 10) * 10 + n / 10 mod 10) * 10 + n mod 10 = n
   /\ (n <= 99 -> n / 10 mod 10 * 10 + n mod 10 = n))%Z.
Proof.
  intros Hn.
  repeat split; Z.to_euclidean_division_equations; lia.
Qed.

Lemma fromisoformat_strftime (dt : PyDate.datetime) :
  PyDate.valid_date (PyDate.dt_date dt) = true ->
  PyDate.fromisoformat (PyDate.strftime_ymd dt)
  = Some (PyDate.midnight (PyDate.dt_date dt)).
Proof.
  intros Hvalid. destruct dt as [[y m d] tod]. simpl in *.
  pose proof Hvalid as Hv. apply valid_date_iff in Hv. simpl in Hv.
  pose proof (days_in_month_bounds y m) as Hdim.
  destruct (pad_digits y) as [Hy1 [Hy2 [Hy3 [Hy4 [Hy _]]]]]; [lia|].
  destruct (pad_digits m) as [_ [_ [Hm1 [Hm2 [_ Hm]]]]]; [lia|].
  destruct (pad_digits d) as [_ [_ [Hd1 [Hd2 [_ Hd]]]]]; [lia|].
  unfold PyDate.strftime_ymd, PyDate.pad4, PyDate.pad2. simpl PyDate.year.
  simpl PyDate.month. simpl PyDate.day.
  change (?a +:+ ?b) with (String.append a b).
  cbv [String.append].
  rewrite (fromisoformat_digits _ _ _ _ _ _ _ _ Hy1 Hy2 Hy3 Hy4 Hm1 Hm2 Hd1 Hd2).
  rewrite Hy, (Hm ltac:(lia)), (Hd ltac:(lia)).
  unfold PyDate.make_date. rewrite Hvalid. reflexivity.
Qed.

Lemma strftime_truthy (dt : PyDate.datetime) :
  PyStr.truthy (Some (PyDate.strftime_ymd dt)) = true.
Proof.
  unfold PyDate.strftime_ymd, PyDate.pad4.
  change (?a +:+ ?b) with (String.append a b).
  cbv [String.append]. reflexivity.
Qed.

Lemma parse_bound_strftime (dt : PyDate.datetime) :
  PyDate.valid_date (PyDate.dt_date dt) = true ->
  parse_bound (Some (PyDate.strftime_ymd dt)) = Some (Some (PyDate.dt_date dt)).
Proof.
  intros Hvalid. unfold parse_bound. rewrite strftime_truthy. simpl default.
  rewrite (fromisoformat_strftime dt Hvalid). reflexivity.
Qed.

Lemma days_before_valid (k : nat) (d : PyDate.date) :
  PyDate.valid_date d = true ->
  (1 <= PyDate.year (PyDate.days_before k d))%Z ->
  PyDate.valid_date (PyDate.days_before k d) = true.
Proof.
  revert d. induction k as [|k IH]; intros d Hd Hyear; simpl in *; [exact Hd|].
  apply IH; [|exact Hyear].
  apply prev_day_valid; [exact Hd|].
  pose proof (days_before_year k (PyDate.prev_day d)). lia.
Qed.

(** ** The default window *)

(** C2, as specified, fails: on 2024-03-10 a message of 2024-03-03 passes
    the default window, and 2024-03-03 is not one of the seven calendar
    days ending on 2024-03-10. *)
Lemma default_window_as_specified_fails : ~ default_window_as_specified.
Proof.
  intros Hspec.
  pose (msg := Sample.message "2024-03-03 09:30:00" (Some "a week ago") None).
  destruct (Hspec (Sample.world FileAbsent true) msg (PyDate.mkDate 2024 3 3)
              (Some "2024-03-03") (Some "2024-03-10")) as [Hkeep _].
  - reflexivity.
  - vm_compute. reflexivity.
  - vm_compute. reflexivity.
  - assert (Hin : In (PyDate.mkDate 2024 3 3)
                    (days_ending 7 (PyDate.dt_date (now (Sample.world FileAbsent true)))))
      by (apply Hkeep; vm_compute; reflexivity).
    vm_compute in Hin.
    repeat (destruct Hin as [Hin|Hin]; [discriminate|]). exact Hin.
Qed.

(** C2, amended: with both bounds omitted ([None] or [""]) the window is
    today minus seven days to today, both written as ISO dates and both
    inclusive: a message passes exactly when its day lies between the two,
    that is, when it is one of the eight calendar days ending today. *)
Theorem default_window_is_eight_days
    (w : World) (start_date end_date : option string) :
  let today := PyDate.dt_date (now w) in
  PyStr.truthy start_date = false ->
  PyStr.truthy end_date = false ->
  PyDate.valid_date today = true ->
  (1 <= PyDate.year (PyDate.days_before 7 today))%Z ->
  exists s e,
    resolve_window w start_date end_date = inr (s, e)
    /\ parse_bound s = Some (Some (PyDate.days_before 7 today))
    /\ parse_bound e = Some (Some today)
    /\ (forall msg d, msg_day msg = Some d ->
          (keep_message s e msg = inr true
           <-> PyDate.date_le (PyDate.days_before 7 today) d = true
               /\ PyDate.date_le d today = true)
          /\ (keep_message s e msg = inr true <-> In d (days_ending 8 today)))
    /\ NoDup (days_ending 8 today)
    /\ length (days_ending 8 today) = 8%nat.
Proof.
  intros today Hstart Hend Hvalid Hyear.
  assert (Hstartvalid : PyDate.valid_date (PyDate.days_before 7 today) = true)
    by (apply days_before_valid; assumption).
  unfold resolve_window. rewrite Hstart, Hend. cbn [negb andb].
  unfold PyDate.sub_days. fold today.
  destruct (Z.ltb_spec (PyDate.year (PyDate.days_before 7 today)) PyDate.MINYEAR)
    as [Hlow|_]; [unfold PyDate.MINYEAR in Hlow; lia|].
  eexists _, _. split; [reflexivity|].
  assert (Hs : parse_bound (Some (PyDate.strftime_ymd
                 (PyDate.mkDatetime (PyDate.days_before 7 today) (PyDate.dt_tod (now w)))))
               = Some (Some (PyDate.days_before 7 today)))
    by (apply parse_bound_strftime; exact Hstartvalid).
  assert (He : parse_bound (Some (PyDate.strftime_ymd (now w))) = Some (Some today))
    by (apply parse_bound_strftime; exact Hvalid).
  split; [exact Hs | split; [exact He | split; [|split]]].
  - intros msg d Hday.
    assert (Hd : PyDate.valid_date d = true).
    { unfold msg_day in Hday.
      destruct (PyDate.strptime_ymd (PyStr.take 10 (Raw.date msg))) as [dt|] eqn:Hp;
        [|discriminate].
      simpl in Hday. inversion Hday; subst d. apply (strptime_midnight _ _ Hp). }
    rewrite (keep_message_in_window _ _ _ _ msg d Hs He Hday).
    unfold in_window.
    assert (Hiff : @inr exn bool (PyDate.date_le (PyDate.days_before 7 today) d
                                  && PyDate.date_le d today) = inr true
                   <-> PyDate.date_le (PyDate.days_before 7 today) d
                       && PyDate.date_le d today = true)
      by (split; [intros Heq; inversion Heq; reflexivity | intros ->; reflexivity]).
    rewrite Hiff. split; [apply andb_true_iff|].
    apply (days_between 7 today d Hvalid Hyear Hd).
  - apply days_ending_NoDup.
  - reflexivity.
Qed.

Lemma default_window_is_eight_days_witness :
  let w := Sample.world FileAbsent true in
  exists s e,
    resolve_window w None (Some "") = inr (s, e)
    /\ parse_bound s = Some (Some (PyDate.days_before 7 (PyDate.mkDate 2024 3 10)))
    /\ parse_bound e = Some (Some (PyDate.mkDate 2024 3 10))
    /\ (forall msg d, msg_day msg = Some d ->
          (keep_message s e msg = inr true
           <-> PyDate.date_le (PyDate.days_before 7 (PyDate.mkDate 2024 3 10)) d = true
               /\ PyDate.date_le d (PyDate.mkDate 2024 3 10) = true)
          /\ (keep_message s e msg = inr true
              <-> In d (days_ending 8 (PyDate.mkDate 2024 3 10))))
    /\ NoDup (days_ending 8 (PyDate.mkDate 2024 3 10))
    /\ length (days_ending 8 (PyDate.mkDate 2024 3 10)) = 8%nat.
Proof.
  intros w.
  apply (default_window_is_eight_days w None (Some "")).
  - reflexivity.
  - reflexivity.
  - reflexivity.
  - vm_compute. discriminate.
Defined.

(** ** The date filter *)

(** C3: when the bounds that are set are ISO dates and every timestamp
    starts with a date, the loop raises nothing and keeps, in their
    original order, exactly the messages whose day is on or after the
    start (if set) and on or before the end (if set).  Both bounds are
    inclusive: the bound's own day is inside, the day before a start and
    a day whose eve is the end are outside. *)
Theorem date_filter_inclusive
    (start_date end_date : option string) (s e : option PyDate.date)
    (msgs : list Raw.Message) :
  parse_bound start_date = Some s ->
  parse_bound end_date = Some e ->
  Forall (fun msg => is_Some (msg_day msg)) msgs ->
  filter_loop start_date end_date msgs []
  = inr (shape_message <$> List.filter (msg_in_window s e) msgs)
  /\ (forall msg d, msg_day msg = Some d ->
        (keep_message start_date end_date msg = inr true
         <-> (forall sd, s = Some sd -> PyDate.date_le sd d = true)
             /\ (forall ed, e = Some ed -> PyDate.date_le d ed = true)))
  /\ (forall d, in_window (Some d) None d = true
                /\ in_window None (Some d) d = true
                /\ in_window (Some d) e (PyDate.prev_day d) = false
                /\ in_window s (Some (PyDate.prev_day d)) d = false).
Proof.
  intros Hs He Hall. split; [|split].
  - apply filter_loop_total; assumption.
  - intros msg d Hday.
    rewrite (keep_message_in_window _ _ s e msg d Hs He Hday).
    unfold in_window. split.
    + intros Heq.
      assert (Hand : match s with Some sd => PyDate.date_le sd d | None => true end
                     && match e with Some ed => PyDate.date_le d ed | None => true end
                     = true) by congruence.
      apply andb_true_iff in Hand. destruct Hand as [Hlow Hhigh].
      split; [intros sd Hsd; rewrite Hsd in Hlow; exact Hlow
             | intros ed Hed; rewrite Hed in Hhigh; exact Hhigh].
    + intros [Hlow Hhigh]. f_equal. apply andb_true_iff. split.
      * destruct s as [sd|]; [apply Hlow|]; reflexivity.
      * destruct e as [ed|]; [apply Hhigh|]; reflexivity.
  - intros d. unfold in_window.
    assert (Hout : PyDate.date_le d (PyDate.prev_day d) = false).
    { unfold PyDate.date_le. rewrite prev_day_lt. reflexivity. }
    rewrite date_le_refl, Hout. repeat split.
    apply andb_false_r.
Qed.

Lemma date_filter_inclusive_witness :
  filter_loop (Some "2024-03-03") (Some "2024-03-10") Sample.history []
  = inr (shape_message
           <$> [ Sample.message "2024-03-03 09:30:00" (Some "a week ago") None;
                 Sample.message "2024-03-04 10:00:00" None (Some [Sample.photo]);
                 Sample.message "2024-03-10 23:59:59" (Some "today") (Some []) ]).
Proof.
  destruct (date_filter_inclusive (Some "2024-03-03") (Some "2024-03-10")
              (Some (PyDate.mkDate 2024 3 3)) (Some (PyDate.mkDate 2024 3 10))
              Sample.history) as [Hloop _].
  - reflexivity.
  - reflexivity.
  - repeat constructor; eexists; vm_compute; reflexivity.
  - exact Hloop.
Defined.

(** ** Shaping *)

Lemma shape_message_fields (msg : Raw.Message) :
  Out.text (shape_message msg) = default "" (Raw.text msg)
  /\ Out.date (shape_message msg) = Raw.date msg
  /\ (Out.has_attachments (shape_message msg) = true
      <-> exists a l, Raw.attachments msg = Some (a :: l))
  /\ Out.attachments (shape_message msg)
     = shape_attachment <$> default [] (Raw.attachments msg).
Proof.
  unfold shape_message. simpl. repeat split.
  - destruct (Raw.text msg) as [[|c t]|]; reflexivity.
  - destruct (Raw.attachments msg) as [[|a l]|]; simpl; [discriminate | eauto | discriminate].
  - intros [a [l ->]]. reflexivity.
  - destruct (Raw.attachments msg) as [[|a l]|]; reflexivity.
Qed.

(** C4: a call that returns has produced one record for each message
    of the fetched history that the loop kept, in the order of the
    history; [total_count] is the length of [messages]; in each record
    the text is the message's text, or "" when it has none, the date is
    the provider's timestamp as it came, [has_attachments] tells whether
    the attachment list has an element, the attachments are mapped one by
    one, and [is_missing] is [false] where the provider has no such
    attribute. *)
Theorem shaping_one_to_one
    (w : World) (L : PhoneLib) (S : StrLib) (contact : string)
    (start_date end_date : option string) (st : State) (r : Out.Result) :
  (get_chat_transcript w contact start_date end_date st).1 = inr r ->
  (exists id window,
     resolve_window w start_date end_date = inr window
     /\ Out.messages r
        = shape_message
            <$> List.filter (retained window.1 window.2) (message_list w id [id]))
  /\ Out.total_count r = length (Out.messages r)
  /\ (forall msg,
        Out.text (shape_message msg) = default "" (Raw.text msg)
        /\ Out.date (shape_message msg) = Raw.date msg
        /\ (Out.has_attachments (shape_message msg) = true
            <-> exists a l, Raw.attachments msg = Some (a :: l))
        /\ Out.attachments (shape_message msg)
           = shape_attachment <$> default [] (Raw.attachments msg))
  /\ (forall att,
        Out.is_missing (shape_attachment att) = default false (Raw.missing att)).
Proof.
  intros Hrun.
  destruct (run_cases w contact start_date end_date st) as [_ Hcases]. simpl in Hcases.
  destruct Hcases as [[err [Herr _]] | [p [ps [id [Hres [Hnorm [Hstore _]]]]]]];
    [congruence|].
  destruct (run_store_present w contact start_date end_date st _ p id ps
              Hres Hnorm Hstore) as [_ [_ Hresult]].
  simpl in Hresult. rewrite Hrun in Hresult.
  destruct (resolve_window w start_date end_date) as [err|window]; [discriminate|].
  destruct (filter_loop window.1 window.2 (message_list w id [id]) [])
    as [err|out] eqn:Hloop; [discriminate|].
  inversion Hresult; subst r. simpl.
  split; [|split; [reflexivity | split; [apply shape_message_fields | reflexivity]]].
  exists id, window. split; [reflexivity|].
  apply filter_loop_result. exact Hloop.
Qed.

Lemma shaping_one_to_one_witness :
  let w := Sample.world (FileHolds Sample.directory) true in
  let r := {| Out.messages :=
                shape_message
                  <$> [ Sample.message "2024-03-03 09:30:00" (Some "a week ago") None;
                        Sample.message "2024-03-04 10:00:00" None (Some [Sample.photo]);
                        Sample.message "2024-03-10 23:59:59" (Some "today") (Some []) ];
              Out.total_count := 3 |} in
  (exists id window,
     resolve_window w None None = inr window
     /\ Out.messages r
        = shape_message
            <$> List.filter (retained window.1 window.2) (message_list w id [id]))
  /\ Out.total_count r = length (Out.messages r).
Proof.
  intros w r.
  destruct (shaping_one_to_one w Nanp.lib AsciiText.lib "smith" None None
              initial_state r)
    as [Hmsgs [Hcount _]].
  - vm_compute. reflexivity.
  - split; [exact Hmsgs | exact Hcount].
Defined.

(** ** Sample runs *)

Example strptime_ex1 :
  PyDate.strptime_ymd (PyStr.take 10 "2024-03-05 17:22:10")
  = Some (PyDate.midnight (PyDate.mkDate 2024 3 5)).
Proof. reflexivity. Qed.

Example strptime_ex2 : PyDate.strptime_ymd "2023-02-29" = None.
Proof. reflexivity. Qed.

Example strptime_ex3 :
  PyDate.strptime_ymd "2024-3-5" = Some (PyDate.midnight (PyDate.mkDate 2024 3 5)).
Proof. reflexivity. Qed.

Example fromisoformat_ex1 :
  PyDate.fromisoformat "2024-02-29" = Some (PyDate.midnight (PyDate.mkDate 2024 2 29))
  /\ PyDate.fromisoformat "2024-2-29" = None.
Proof. split; reflexivity. Qed.

Example sub_days_ex1 :
  PyDate.sub_days (PyDate.mkDatetime (PyDate.mkDate 2024 3 5) 45296000000) 7
  = inr (PyDate.mkDatetime (PyDate.mkDate 2024 2 27) 45296000000).
Proof. reflexivity. Qed.

Example strftime_ex1 :
  PyDate.strftime_ymd (PyDate.mkDatetime (PyDate.mkDate 2024 3 5) 45296000000)
  = "2024-03-05".
Proof. reflexivity. Qed.

Example sample_lookup_exact :
  lookup_in (S := AsciiText.lib) Sample.directory "Bob Stone"
  = Some ["+1 201 555 0123"].
Proof. vm_compute. reflexivity. Qed.

Example sample_run :
  (get_chat_transcript (L := Nanp.lib) (S := AsciiText.lib)
     (Sample.world (FileHolds Sample.directory) true)
     "smith" None None initial_state).1
  = inr {| Out.messages :=
             shape_message <$> [ Sample.message "2024-03-03 09:30:00" (Some "a week ago") None;
                                 Sample.message "2024-03-04 10:00:00" None (Some [Sample.photo]);
                                 Sample.message "2024-03-10 23:59:59" (Some "today") (Some []) ];
           Out.total_count := 3 |}.
Proof. vm_compute. reflexivity. Qed.

Example sample_run_trace :
  trace (get_chat_transcript (L := Nanp.lib) (S := AsciiText.lib)
     (Sample.world (FileHolds Sample.directory) true)
     "smith" None None initial_state).2
  = [EvConnect "/Users/me/Library/Messages/chat.db";
     EvFetch "+16502530000" ["+16502530000"]].
Proof. vm_compute. reflexivity. Qed.

Example path_texts :
  PyPath.to_string (PyPath.of_string "/nonexistent//override/./chat.db/")
  = "/nonexistent/override/chat.db"
  /\ PyPath.to_string (PyPath.of_string "//srv/chat.db") = "//srv/chat.db"
  /\ PyPath.to_string (PyPath.of_string "///srv/../chat.db") = "/srv/../chat.db"
  /\ PyPath.to_string (PyPath.of_string "") = "."
  /\ PyPath.to_string (PyPath.of_string "chat.db") = "chat.db".
Proof. vm_compute. repeat split. Qed.

Example wrong_shape_run :
  (get_chat_transcript (L := Nanp.lib) (S := AsciiText.lib)
     (Sample.world_of (FileHoldsValue (JArray [])) None true)
     "650-253-0000" None None initial_state).1
  = inl (AttributeError "'list' object has no attribute 'items'").
Proof. vm_compute. reflexivity. Qed.

Example nanp_formats :
  normalize_phone (L := Nanp.lib) "650-253-0000" = inr "+16502530000"
  /\ normalize_phone (L := Nanp.lib) "(650) 253-0000" = inr "+16502530000"
  /\ normalize_phone (L := Nanp.lib) "+16502530000" = inr "+16502530000"
  /\ normalize_phone (L := Nanp.lib) "1 650 253 0000" = inr "+16502530000".
Proof. vm_compute. repeat split. Qed.

(** * Further properties of the server *)

(** ** Lookup *)

Lemma dict_get_in (key : string) (info : ContactInfo) (d : Directory) :
  NoDup d.*1 -> In (key, info) d -> dict_get key d = Some info.
Proof.
  induction d as [|[n i] d IH]; simpl; intros Hnodup Hin; [destruct Hin|].
  apply NoDup_cons in Hnodup. destruct Hnodup as [Hfresh Hnodup].
  destruct Hin as [Heq|Hin].
  - inversion Heq; subst. rewrite decide_True by reflexivity. reflexivity.
  - destruct (decide (key = n)) as [->|Hne]; [|apply IH; assumption].
    exfalso. apply Hfresh. apply list_elem_of_In in Hin.
    apply (list_elem_of_fmap_2 fst) in Hin. exact Hin.
Qed.

(** X1: in a directory with pairwise distinct names, the exact name of
    an entry is answered with that entry's own phone list, whatever other
    names contain it, and the directory is left alone. *)
Theorem exact_name_returns_own_phones
    (w : World) (S : StrLib) (st : State) (name : string) (info : ContactInfo) :
  NoDup (contacts_map st).*1 ->
  In (name, info) (contacts_map st) ->
  lookup_contact_numbers w name st = (inr (Some (info_phones info)), st).
Proof.
  intros Hnodup Hin.
  rewrite lookup_contact_numbers_eq.
  assert (Hloaded : contacts_map st <> [])
    by (destruct (contacts_map st); [destruct Hin | discriminate]).
  rewrite reload_if_empty_loaded, global_value_loaded by exact Hloaded.
  unfold lookup_in. rewrite (dict_get_in name info _ Hnodup Hin). reflexivity.
Qed.

Lemma exact_name_returns_own_phones_witness :
  lookup_contact_numbers (S := AsciiText.lib) (Sample.world FileAbsent true)
    "Ann Smith" (Sample.loaded Sample.directory)
  = (inr (Some (info_phones Sample.ann_smith)), Sample.loaded Sample.directory).
Proof.
  apply (exact_name_returns_own_phones (Sample.world FileAbsent true) AsciiText.lib
           (Sample.loaded Sample.directory) "Ann Smith" Sample.ann_smith).
  - apply (bool_decide_unpack _). vm_compute. exact I.
  - simpl. right. left. reflexivity.
Defined.

(** ** The directory cache *)

(** X3: a call leaves in the global exactly this: a directory that was
    loaded is kept, whatever the file holds by now; a falsy global is
    replaced by the file's directory when the file holds one, and no
    directory is there when the file is absent, broken or not an object.
    The outcome of the call (result or exception) makes no difference. *)
Theorem directory_cache_after_call
    (w : World) (L : PhoneLib) (S : StrLib) (contact : string)
    (start_date end_date : option string) (st : State) :
  contacts_map (get_chat_transcript w contact start_date end_date st).2
  = directory_after w st
  /\ (contacts_map st <> [] ->
      contacts_map (get_chat_transcript w contact start_date end_date st).2
      = contacts_map st).
Proof.
  destruct (run_cases w contact start_date end_date st) as [Hmap _].
  simpl in Hmap.
  assert (Hafter : contacts_map (reload_if_empty w st) = directory_after w st).
  { unfold reload_if_empty, directory_after, load_contacts_map.
    destruct (contacts_map st) eqn:Hcm;
      [|unfold global_falsy; rewrite Hcm; exact Hcm].
    destruct (global_falsy st); [|exact Hcm].
    destruct (contacts_file w) as [[| err | d] | v]; simpl;
      try exact Hcm; reflexivity. }
  split; [congruence|].
  intros Hloaded. rewrite Hmap, reload_if_empty_loaded by exact Hloaded. reflexivity.
Qed.

Lemma directory_cache_after_call_witness :
  contacts_map (get_chat_transcript (L := Nanp.lib) (S := AsciiText.lib)
                  (Sample.world (FileBroken "x") true)
                  "nobody" None None (Sample.loaded Sample.directory)).2
  = Sample.directory.
Proof.
  destruct (directory_cache_after_call (Sample.world (FileBroken "x") true) Nanp.lib
              AsciiText.lib "nobody" None None (Sample.loaded Sample.directory))
    as [_ Hkept].
  apply Hkept. discriminate.
Defined.

(** ** Numbers of the directory that are not valid *)

(** X5: when the lookup answers with a phone list whose first number
    does not parse or is not valid, the call raises [ValueError] for that
    number and logs nothing: neither the later numbers of the list nor the
    contact string itself are tried. *)
Theorem invalid_directory_number_raises
    (w : World) (L : PhoneLib) (S : StrLib) (contact : string)
    (start_date end_date : option string) (st : State)
    (ph : string) (phs : list string) :
  lookup_in (contacts_map (reload_if_empty w st)) contact = Some (ph :: phs) ->
  (forall p, parse ph "US" = inr p -> is_valid_number p = false) ->
  let r := get_chat_transcript w contact start_date end_date st in
  r.1 = inl (ValueError
               match parse ph "US" with
               | inl e => "Invalid phone number format: " +:+ e
               | inr _ => "Invalid phone number: " +:+ ph
               end)
  /\ trace r.2 = trace st.
Proof.
  intros Hlook Hbad r. subst r.
  assert (Hres : resolve_contact w contact st = (inr (ph :: phs), reload_if_empty w st))
    by (rewrite resolve_contact_directory, Hlook;
        [reflexivity
        | apply global_value_loaded; exact (lookup_in_nonempty _ _ _ Hlook)]).
  assert (Hnorm : normalize_phone ph
                  = inl (ValueError
                           match parse ph "US" with
                           | inl e => "Invalid phone number format: " +:+ e
                           | inr _ => "Invalid phone number: " +:+ ph
                           end)).
  { unfold normalize_phone. destruct (parse ph "US") as [e|p] eqn:Hparse; [reflexivity|].
    rewrite (Hbad p eq_refl). reflexivity. }
  rewrite (run_normalize_fails w contact start_date end_date st _ ph phs _ Hres Hnorm).
  split; [reflexivity | apply reload_if_empty_trace].
Qed.

Lemma invalid_directory_number_raises_witness :
  let w := Sample.world FileAbsent true in
  let st := Sample.loaded [("Cy", {["phones" := ["253-0000"; "650-253-0000"]]})] in
  (get_chat_transcript (L := Nanp.lib) (S := AsciiText.lib) w "Cy" None None st).1
  = inl (ValueError "Invalid phone number: 253-0000")
  /\ trace (get_chat_transcript (L := Nanp.lib) (S := AsciiText.lib) w "Cy"
              None None st).2 = [].
Proof.
  intros w st.
  destruct (invalid_directory_number_raises w Nanp.lib AsciiText.lib "Cy" None None
              st "253-0000"
              ["650-253-0000"]) as [Hresult Htrace].
  - vm_compute. reflexivity.
  - intros p Hparse. vm_compute in Hparse. inversion Hparse; subst. reflexivity.
  - split; [rewrite Hresult; reflexivity | rewrite Htrace; reflexivity].
Defined.

(** ** A call that returns *)

(** X6: a call returns, and returns this, when every stage has what it
    needs: the contact resolves to a list whose first number normalises,
    the store is there, the window (given or default) consists of ISO
    dates, and every timestamp of the fetched history starts with a date.
    The transcript is then the history filtered by the window, shaped, in
    the order of the history, with its length as [total_count]. *)
Theorem call_returns_transcript
    (w : World) (L : PhoneLib) (S : StrLib) (contact : string)
    (start_date end_date : option string) (st st1 : State)
    (p id : string) (ps : list string)
    (window : option string * option string) (s e : option PyDate.date) :
  resolve_contact w contact st = (inr (p :: ps), st1) ->
  normalize_phone p = inr id ->
  path_exists w (DB_PATH w) = true ->
  resolve_window w start_date end_date = inr window ->
  parse_bound window.1 = Some s ->
  parse_bound window.2 = Some e ->
  Forall (fun msg => is_Some (msg_day msg)) (message_list w id [id]) ->
  (get_chat_transcript w contact start_date end_date st).1
  = inr {| Out.messages :=
             shape_message <$> List.filter (msg_in_window s e) (message_list w id [id]);
           Out.total_count :=
             length (List.filter (msg_in_window s e) (message_list w id [id])) |}.
Proof.
  intros Hres Hnorm Hstore Hwindow Hs He Hall.
  destruct (run_store_present w contact start_date end_date st _ p id ps
              Hres Hnorm Hstore) as [_ [_ Hresult]].
  simpl in Hresult. rewrite Hresult, Hwindow.
  rewrite (filter_loop_total _ _ s e _ Hs He Hall).
  rewrite length_fmap. reflexivity.
Qed.

Lemma call_returns_transcript_witness :
  (get_chat_transcript (L := Nanp.lib) (S := AsciiText.lib)
     (Sample.world FileAbsent true) "Ann Smith"
     (Some "2024-03-04") None (Sample.loaded Sample.directory)).1
  = inr {| Out.messages :=
             shape_message
               <$> List.filter
                     (msg_in_window (Some (PyDate.mkDate 2024 3 4)) None)
                     Sample.history;
           Out.total_count :=
             length (List.filter
                       (msg_in_window (Some (PyDate.mkDate 2024 3 4)) None)
                       Sample.history) |}.
Proof.
  apply (call_returns_transcript (Sample.world FileAbsent true) Nanp.lib
           AsciiText.lib "Ann Smith" (Some "2024-03-04") None (Sample.loaded Sample.directory)
           (Sample.loaded Sample.directory) "(650) 253-0000" "+16502530000"
           ["201-555-0123"] (Some "2024-03-04", None)).
  - vm_compute. reflexivity.
  - vm_compute. reflexivity.
  - reflexivity.
  - reflexivity.
  - reflexivity.
  - reflexivity.
  - repeat constructor; eexists; vm_compute; reflexivity.
Defined.

(** ** Edges of the filter *)




Lemma has_non_digit_rev_app (a b : string) :
  PyDate.has_non_digit (String.rev_app a b)
  = PyDate.has_non_digit a || PyDate.has_non_digit b.
Proof.
  revert b. induction a as [|c a IH]; intros b; [reflexivity|].
  change (String.rev_app (String c a) b) with (String.rev_app a (String c b)).
  rewrite IH. cbn [PyDate.has_non_digit].
  destruct (negb (bool_decide (is_Some (PyDate.digit_val c))));
    destruct (PyDate.has_non_digit a); destruct (PyDate.has_non_digit b); reflexivity.
Qed.

(** A field that has begun with a character that is no digit ends as a
    field that holds one. *)
Lemma split_dash_from_non_digit (s cur : string) :
  PyDate.has_non_digit cur = true ->
  exists y ys, PyDate.split_dash_from cur s = y :: ys
               /\ PyDate.has_non_digit y = true.
Proof.
  revert cur. induction s as [|c r IH]; intros cur Hcur.
  - exists (String.rev cur), []. split; [reflexivity|].
    unfold String.rev. rewrite has_non_digit_rev_app, Hcur. reflexivity.
  - cbn [PyDate.split_dash_from]. case_decide.
    + exists (String.rev cur), (PyDate.split_dash_from "" r). split; [reflexivity|].
      unfold String.rev. rewrite has_non_digit_rev_app, Hcur. reflexivity.
    + apply IH. cbn [PyDate.has_non_digit]. rewrite Hcur. apply orb_true_r.
Qed.

Lemma digits_val_from_non_digit (s : string) (acc : Z) :
  PyDate.has_non_digit s = true -> PyDate.digits_val_from acc s = None.
Proof.
  revert acc. induction s as [|c r IH]; intros acc; [discriminate|].
  cbn [PyDate.has_non_digit PyDate.digits_val_from].
  destruct (PyDate.digit_val c) as [v|]; [|reflexivity].
  rewrite bool_decide_eq_true_2 by (eexists; reflexivity). simpl. apply IH.
Qed.

Lemma digits_val_non_digit (s : string) :
  PyDate.has_non_digit s = true -> PyDate.digits_val s = None.
Proof.
  destruct s as [|c r]; [discriminate|].
  intros Hs. unfold PyDate.digits_val. apply digits_val_from_non_digit. exact Hs.
Qed.

Lemma is_letter_no_digit (c : ascii) :
  PyStr.is_letter c = true -> PyDate.digit_val c = None /\ c <> "-"%char.
Proof.
  destruct c as [[] [] [] [] [] [] [] []]; vm_compute; intros Hc;
    try discriminate; split; try reflexivity; discriminate.
Qed.

(** A text that begins with a letter is no ISO date. *)
Lemma fromisoformat_letter (c : ascii) (rest : string) :
  PyStr.is_letter c = true -> PyDate.fromisoformat (String c rest) = None.
Proof.
  intros Hc. destruct (is_letter_no_digit c Hc) as [Hdigit Hdash].
  unfold PyDate.fromisoformat, PyDate.split_dash.
  case_decide; [|reflexivity].
  cbn [PyDate.split_dash_from]. rewrite decide_False by exact Hdash.
  destruct (split_dash_from_non_digit rest (String c ""))
    as [y [ys [-> Hy]]].
  { cbn [PyDate.has_non_digit]. rewrite Hdigit. reflexivity. }
  destruct ys as [|m [|d [|x ys]]]; try reflexivity.
  case_decide; [|reflexivity].
  rewrite (digits_val_non_digit y Hy). reflexivity.
Qed.

(** X8: a start date that begins with a letter, which no ISO form
    does, is passed on unchanged by the window stage and is only read
    inside the loop: on an empty history the loop returns the empty
    transcript, and it raises a [ValueError] as soon as the history starts
    with a message whose timestamp starts with a date. *)
Theorem unparsable_start_needs_a_message
    (w : World) (c : ascii) (tail : string) (end_date : option string) :
  PyStr.is_letter c = true ->
  resolve_window w (Some (String c tail)) end_date
  = inr (Some (String c tail), end_date)
  /\ filter_loop (Some (String c tail)) end_date [] [] = inr []
  /\ forall msg rest,
       is_Some (msg_day msg) ->
       exists text,
         filter_loop (Some (String c tail)) end_date (msg :: rest) []
         = inl (ValueError text).
Proof.
  intros Hletter. split; [|split].
  - reflexivity.
  - reflexivity.
  - intros msg rest [d Hday]. cbn [filter_loop]. unfold keep_message, check_bound.
    unfold msg_day in Hday.
    destruct (PyDate.strptime_ymd (PyStr.take 10 (Raw.date msg))); [|discriminate].
    change (PyStr.truthy (Some (String c tail))) with true.
    change (default "" (Some (String c tail))) with (String c tail).
    rewrite (fromisoformat_letter c tail Hletter). eexists. reflexivity.
Qed.

Lemma unparsable_start_needs_a_message_witness :
  resolve_window (Sample.world FileAbsent true) (Some "last week") None
  = inr (Some "last week", None)
  /\ filter_loop (Some "last week") None [] [] = inr []
  /\ forall msg rest,
       is_Some (msg_day msg) ->
       exists text,
         filter_loop (Some "last week") None (msg :: rest) [] = inl (ValueError text).
Proof.
  apply (unparsable_start_needs_a_message (Sample.world FileAbsent true)
           "l"%char "ast week" None); reflexivity.
Defined.

(** X9: a window whose end lies before its start keeps no message and
    raises nothing. *)
Theorem inverted_window_is_empty
    (start_date end_date : option string) (sd ed : PyDate.date)
    (msgs : list Raw.Message) :
  parse_bound start_date = Some (Some sd) ->
  parse_bound end_date = Some (Some ed) ->
  PyDate.date_lt ed sd = true ->
  Forall (fun msg => is_Some (msg_day msg)) msgs ->
  filter_loop start_date end_date msgs [] = inr [].
Proof.
  intros Hs He Hinv Hall.
  rewrite (filter_loop_total _ _ _ _ msgs Hs He Hall).
  replace (List.filter (msg_in_window (Some sd) (Some ed)) msgs) with (@nil Raw.Message);
    [reflexivity|].
  symmetry. clear Hall. induction msgs as [|msg msgs IH]; simpl; [reflexivity|].
  replace (msg_in_window (Some sd) (Some ed) msg) with false; [exact IH|].
  symmetry. unfold msg_in_window. destruct (msg_day msg) as [d|]; [|reflexivity].
  unfold in_window.
  destruct (PyDate.date_le sd d) eqn:Hlow; [|reflexivity].
  destruct (PyDate.date_le d ed) eqn:Hhigh; [|reflexivity].
  exfalso. pose proof (date_le_lt_trans _ _ _ Hhigh Hinv) as Hlt.
  apply date_le_iff in Hlow. congruence.
Qed.

Lemma inverted_window_is_empty_witness :
  filter_loop (Some "2024-03-10") (Some "2024-03-03") Sample.history [] = inr [].
Proof.
  apply (inverted_window_is_empty (Some "2024-03-10") (Some "2024-03-03")
           (PyDate.mkDate 2024 3 10) (PyDate.mkDate 2024 3 3) Sample.history).
  - reflexivity.
  - reflexivity.
  - reflexivity.
  - repeat constructor; eexists; vm_compute; reflexivity.
Defined.

(** X10: the seven-day default is applied only when both bounds are
    omitted.  With a start date alone the window is open above: a message
    is kept exactly when its day is on or after the start; with an end
    date alone it is open below. *)
Theorem one_sided_window
    (w : World) (bound other : option string) (bd : PyDate.date) :
  parse_bound bound = Some (Some bd) ->
  PyStr.truthy other = false ->
  resolve_window w bound other = inr (bound, other)
  /\ resolve_window w other bound = inr (other, bound)
  /\ forall msg d, msg_day msg = Some d ->
       (keep_message bound other msg = inr true <-> PyDate.date_le bd d = true)
       /\ (keep_message other bound msg = inr true <-> PyDate.date_le d bd = true).
Proof.
  intros Hbound Hother.
  assert (Hset : PyStr.truthy bound = true).
  { unfold parse_bound in Hbound. destruct (PyStr.truthy bound); [reflexivity|].
    discriminate. }
  assert (Hnone : parse_bound other = Some None)
    by (unfold parse_bound; rewrite Hother; reflexivity).
  split; [|split].
  - unfold resolve_window. rewrite Hset. reflexivity.
  - unfold resolve_window. rewrite Hset, Hother. reflexivity.
  - intros msg d Hday.
    rewrite (keep_message_in_window _ _ _ _ msg d Hbound Hnone Hday),
      (keep_message_in_window _ _ _ _ msg d Hnone Hbound Hday).
    unfold in_window. rewrite andb_true_r. simpl.
    split; (split; [intros Heq; inversion Heq; reflexivity | intros ->; reflexivity]).
Qed.

Lemma one_sided_window_witness :
  resolve_window (Sample.world FileAbsent true) (Some "2024-03-04") None
  = inr (Some "2024-03-04", None)
  /\ resolve_window (Sample.world FileAbsent true) None (Some "2024-03-04")
     = inr (None, Some "2024-03-04")
  /\ forall msg d, msg_day msg = Some d ->
       (keep_message (Some "2024-03-04") None msg = inr true
        <-> PyDate.date_le (PyDate.mkDate 2024 3 4) d = true)
       /\ (keep_message None (Some "2024-03-04") msg = inr true
           <-> PyDate.date_le d (PyDate.mkDate 2024 3 4) = true).
Proof.
  apply (one_sided_window (Sample.world FileAbsent true) (Some "2024-03-04") None
           (PyDate.mkDate 2024 3 4)); reflexivity.
Defined.

(** * Properties of the exporter *)

Section ExporterFacts.

Import Exporter.

Context {S : StrLib}.



Lemma dict_alter_keys (f : ContactInfo -> ContactInfo) (k : string) (d : Directory) :
  (dict_alter f k d).*1 = d.*1.
Proof.
  induction d as [|[n i] d IH]; [reflexivity|].
  cbn [dict_alter]. destruct (decide (k = n)); rewrite !fmap_cons; [reflexivity|].
  rewrite IH. reflexivity.
Qed.

Lemma dict_get_not_key (k : string) (d : Directory) :
  dict_get k d = None <-> k ∉ d.*1.
Proof.
  induction d as [|[n i] d IH]; cbn [dict_get].
  - split; [intros _; apply not_elem_of_nil | reflexivity].
  - rewrite fmap_cons, not_elem_of_cons. cbn [fst].
    destruct (decide (k = n)) as [->|Hne].
    + split; [discriminate | intros [Hne _]; congruence].
    + rewrite IH. tauto.
Qed.


Lemma phones_append_phone (p : string) (info : ContactInfo) :
  info_phones (append_phone p info) = info_phones info ++ [p]
  /\ info_emails (append_phone p info) = info_emails info.
Proof.
  unfold info_phones, info_emails, append_phone.
  rewrite lookup_insert_eq, lookup_insert_ne by discriminate. split; reflexivity.
Qed.

Lemma emails_append_email (e : string) (info : ContactInfo) :
  info_emails (append_email e info) = info_emails info ++ [e]
  /\ info_phones (append_email e info) = info_phones info.
Proof.
  unfold info_phones, info_emails, append_email.
  rewrite lookup_insert_eq, lookup_insert_ne by discriminate. split; reflexivity.
Qed.

Lemma new_info_lists :
  info_phones new_info = [] /\ info_emails new_info = [].
Proof. split; reflexivity. Qed.













Lemma Forall_dict_alter (P : string * ContactInfo -> Prop)
    (f : ContactInfo -> ContactInfo) (k : string) (d : Directory) :
  Forall P d ->
  (forall info, dict_get k d = Some info -> P (k, info) -> P (k, f info)) ->
  Forall P (dict_alter f k d).
Proof.
  induction d as [|[n i] d IH]; intros Hall Hstep; cbn [dict_alter]; [constructor|].
  apply Forall_cons in Hall. destruct Hall as [Hhead Htail].
  cbn [dict_get] in Hstep.
  destruct (decide (k = n)) as [->|Hne].
  - constructor; [|exact Htail]. apply Hstep; [reflexivity | exact Hhead].
  - constructor; [exact Hhead|]. apply IH; assumption.
Qed.

Lemma well_formed_ensure (k : string) (d : Directory) :
  k <> "" -> well_formed d -> well_formed (ensure_contact k d).
Proof.
  intros Hk [Hnodup Hall]. unfold ensure_contact.
  destruct (dict_get k d) eqn:Hget; [split; assumption|].
  apply dict_get_not_key in Hget. split.
  - rewrite fmap_app. apply NoDup_app. split; [exact Hnodup|].
    split; [|apply NoDup_singleton].
    intros x Hx Hx'. apply list_elem_of_singleton in Hx'. cbn in Hx'. subst x. contradiction.
  - apply Forall_app. split; [exact Hall|]. constructor; [|constructor].
    unfold well_formed_entry. cbn [fst snd].
    split; [exact Hk|].
    split; [unfold new_info; rewrite lookup_insert_ne by discriminate;
            rewrite lookup_singleton_eq; eauto|].
    split; [unfold new_info; rewrite lookup_insert_eq; eauto|].
    destruct new_info_lists as [-> ->].
    repeat split; constructor.
Qed.

Lemma well_formed_add_phone (k : string) (ph : option string) (d : Directory) :
  well_formed d -> well_formed (add_phone k ph d).
Proof.
  intros [Hnodup Hall]. unfold add_phone.
  destruct (PyStr.truthy ph); simpl; [|split; assumption].
  destruct (decide (default "" ph ∈ phones_of k d)) as [Hin|Hnot].
  - rewrite bool_decide_eq_true_2 by exact Hin. split; assumption.
  - rewrite bool_decide_eq_false_2 by exact Hnot. simpl. split.
    + rewrite dict_alter_keys. exact Hnodup.
    + apply Forall_dict_alter; [exact Hall|].
      intros info Hget. unfold phones_of in Hnot. rewrite Hget in Hnot.
      unfold well_formed_entry. cbn [fst snd].
      intros [Hk [Hp [He [Hnp [Hne Hlow]]]]].
      destruct (phones_append_phone (default "" ph) info) as [Hphones Hemails].
      rewrite Hphones, Hemails.
      split; [exact Hk|]. unfold append_phone.
      split; [rewrite lookup_insert_eq; eauto|].
      split; [rewrite lookup_insert_ne by discriminate; exact He|].
      split; [|split; assumption].
      apply NoDup_app. split; [exact Hnp|]. split; [|apply NoDup_singleton].
      intros x Hx Hx'. apply list_elem_of_singleton in Hx'. subst x. contradiction.
Qed.

Lemma well_formed_add_email (k : string) (e : option string) (d : Directory) :
  well_formed d -> well_formed (add_email k e d).
Proof.
  intros [Hnodup Hall]. unfold add_email.
  destruct (PyStr.truthy e); simpl; [|split; assumption].
  destruct (decide (str_lower (default "" e) ∈ emails_of k d)) as [Hin|Hnot].
  - rewrite bool_decide_eq_true_2 by exact Hin. split; assumption.
  - rewrite bool_decide_eq_false_2 by exact Hnot. simpl. split.
    + rewrite dict_alter_keys. exact Hnodup.
    + apply Forall_dict_alter; [exact Hall|].
      intros info Hget. unfold emails_of in Hnot. rewrite Hget in Hnot.
      unfold well_formed_entry. cbn [fst snd].
      intros [Hk [Hp [He [Hnp [Hne Hlow]]]]].
      destruct (emails_append_email (str_lower (default "" e)) info)
        as [Hemails Hphones].
      rewrite Hphones, Hemails.
      split; [exact Hk|]. unfold append_email.
      split; [rewrite lookup_insert_ne by discriminate; exact Hp|].
      split; [rewrite lookup_insert_eq; eauto|].
      split; [exact Hnp|]. split.
      * apply NoDup_app. split; [exact Hne|]. split; [|apply NoDup_singleton].
        intros x Hx Hx'. apply list_elem_of_singleton in Hx'. subst x. contradiction.
      * apply Forall_app. split; [exact Hlow|].
        constructor; [apply str_lower_idem | constructor].
Qed.

Lemma well_formed_add_row (d : Directory) (row : Row) :
  well_formed d -> well_formed (add_row d row).
Proof.
  intros Hwf. unfold add_row.
  destruct (decide (row_name row = "")); [exact Hwf|].
  apply well_formed_add_email, well_formed_add_phone, well_formed_ensure; assumption.
Qed.

Lemma well_formed_fold (rows : list Row) (acc : Directory) :
  well_formed acc -> well_formed (fold_left add_row rows acc).
Proof.
  revert acc. induction rows as [|row rows IH]; intros acc Hwf; [exact Hwf|].
  cbn [fold_left]. apply IH, well_formed_add_row, Hwf.
Qed.

Lemma filter_keys_subset (P : string * ContactInfo -> bool) (d : Directory) (k : string) :
  k ∈ (List.filter P d).*1 -> k ∈ d.*1.
Proof.
  induction d as [|[n i] d IH]; cbn [List.filter]; [trivial|].
  rewrite fmap_cons. destruct (P (n, i)).
  - rewrite fmap_cons, !elem_of_cons. intros [->|Hin]; [left; reflexivity|].
    right. apply IH. exact Hin.
  - intros Hin. apply elem_of_cons. right. apply IH. exact Hin.
Qed.

Lemma well_formed_filter (P : string * ContactInfo -> bool) (d : Directory) :
  well_formed d -> well_formed (List.filter P d).
Proof.
  intros [Hnodup Hall]. split.
  - induction d as [|[n i] d IH]; cbn [List.filter]; [constructor|].
    rewrite fmap_cons in Hnodup. apply NoDup_cons in Hnodup.
    destruct Hnodup as [Hfresh Hnodup]. apply Forall_cons in Hall.
    destruct Hall as [_ Hall].
    destruct (P (n, i)); [|apply IH; assumption].
    rewrite fmap_cons. apply NoDup_cons. split; [|apply IH; assumption].
    intros Hin. apply Hfresh. apply (filter_keys_subset P). exact Hin.
  - apply Forall_forall. intros x Hx. apply list_elem_of_In in Hx.
    apply filter_In in Hx. destruct Hx as [Hx _].
    rewrite Forall_forall in Hall. apply Hall. apply list_elem_of_In. exact Hx.
Qed.





Lemma fold_left_well_formed (results : list Row) :
  well_formed (fold_left add_row results []).
Proof.
  apply well_formed_fold. split; constructor.
Qed.

Lemma build_contacts_well_formed (results : list Row) :
  well_formed (build_contacts results)
  /\ Forall (fun entry => info_phones entry.2 <> [] \/ info_emails entry.2 <> [])
       (build_contacts results).
Proof.
  unfold build_contacts. split.
  - apply well_formed_filter, fold_left_well_formed.
  - apply Forall_forall. intros [n info] Hin. apply list_elem_of_In in Hin.
    apply filter_In in Hin. destruct Hin as [_ Hdata].
    unfold has_data in Hdata. cbn [snd] in *.
    destruct (info_phones info); [|left; discriminate].
    destruct (info_emails info); [discriminate | right; discriminate].
Qed.

(** X11: whatever rows the query returns, the exported directory has
    pairwise distinct names, none of them empty; every entry holds both
    lists, lists no phone and no e-mail address twice, holds its
    addresses in lower case, and has at least one phone or one address. *)
Theorem exported_directory_well_formed (results : list Row) :
  well_formed (build_contacts results)
  /\ Forall (fun entry => info_phones entry.2 <> [] \/ info_emails entry.2 <> [])
       (build_contacts results).
Proof. exact (build_contacts_well_formed results). Qed.





End ExporterFacts.



(** * Properties of the command-line script *)

Lemma days_before_succ_r (k : nat) (d : PyDate.date) :
  PyDate.days_before (S k) d = PyDate.prev_day (PyDate.days_before k d).
Proof.
  revert d. induction k as [|k IH]; intros d; [reflexivity|].
  change (PyDate.days_before (S (S k)) d)
    with (PyDate.days_before (S k) (PyDate.prev_day d)).
  rewrite IH. reflexivity.
Qed.

Lemma date_lt_le_trans (a b c : PyDate.date) :
  PyDate.date_lt a b = true -> PyDate.date_le b c = true -> PyDate.date_lt a c = true.
Proof. rewrite date_le_iff, !date_lt_iff. lia. Qed.

(** Later than the day before means not earlier than the day. *)
Lemma date_lt_prev_day (x d : PyDate.date) :
  PyDate.valid_date x = true -> PyDate.valid_date d = true ->
  (PyDate.date_lt (PyDate.prev_day x) d = true <-> PyDate.date_le x d = true).
Proof.
  intros Hx Hd. split.
  - intros Hlt. apply date_le_iff. intros Hdx.
    pose proof (prev_day_pred x d Hx Hd Hdx) as Hle.
    apply date_le_iff in Hle. contradiction.
  - intros Hle. apply (date_lt_le_trans _ x); [apply prev_day_lt | exact Hle].
Qed.

Lemma date_eqb_eq (a b : PyDate.date) : PyDate.date_eqb a b = true <-> a = b.
Proof.
  unfold PyDate.date_eqb. rewrite !andb_true_iff, !Z.eqb_eq. split.
  - intros [[Hy Hm] Hd]. apply date_eq_fields; assumption.
  - intros ->. repeat split.
Qed.

(** The two halves of the script's test, for a message at midnight. *)
Lemma script_bounds (sd today d : PyDate.date) (tod : Z) :
  Script.datetime_le (PyDate.midnight d) (PyDate.mkDatetime today tod)
  = (if (tod <? 0)%Z then PyDate.date_lt d today else PyDate.date_le d today)
  /\ Script.datetime_le (PyDate.mkDatetime sd tod) (PyDate.midnight d)
     = (if (0 <? tod)%Z then PyDate.date_lt sd d else PyDate.date_le sd d).
Proof.
  unfold Script.datetime_le, PyDate.datetime_lt, PyDate.date_le. simpl.
  split.
  - destruct (tod <? 0)%Z; [|rewrite andb_false_r, orb_false_r; reflexivity].
    rewrite andb_true_r.
    destruct (date_trichotomy d today) as [Hlt|[->|Hgt]].
    + rewrite Hlt. assert (Hn : PyDate.date_lt today d = false).
      { destruct (PyDate.date_lt today d) eqn:H; [|reflexivity].
        pose proof (date_lt_trans _ _ _ Hlt H) as Hc.
        rewrite date_lt_irrefl in Hc. discriminate. }
      rewrite Hn.
      assert (He : PyDate.date_eqb today d = false).
      { destruct (PyDate.date_eqb today d) eqn:H; [|reflexivity].
        apply date_eqb_eq in H. subst. rewrite date_lt_irrefl in Hlt. discriminate. }
      rewrite He. reflexivity.
    + rewrite date_lt_irrefl. assert (He : PyDate.date_eqb today today = true)
        by (apply date_eqb_eq; reflexivity).
      rewrite He. reflexivity.
    + rewrite Hgt. simpl.
      destruct (PyDate.date_lt d today) eqn:H; [|reflexivity].
      pose proof (date_lt_trans _ _ _ H Hgt) as Hc.
      rewrite date_lt_irrefl in Hc. discriminate.
  - destruct (0 <? tod)%Z; [|rewrite andb_false_r, orb_false_r; reflexivity].
    rewrite andb_true_r.
    destruct (date_trichotomy d sd) as [Hlt|[->|Hgt]].
    + rewrite Hlt. simpl.
      destruct (PyDate.date_lt sd d) eqn:H; [|reflexivity].
      pose proof (date_lt_trans _ _ _ Hlt H) as Hc.
      rewrite date_lt_irrefl in Hc. discriminate.
    + rewrite date_lt_irrefl. assert (He : PyDate.date_eqb sd sd = true)
        by (apply date_eqb_eq; reflexivity).
      rewrite He. reflexivity.
    + rewrite Hgt.
      assert (Hn : PyDate.date_lt d sd = false).
      { destruct (PyDate.date_lt d sd) eqn:H; [|reflexivity].
        pose proof (date_lt_trans _ _ _ H Hgt) as Hc.
        rewrite date_lt_irrefl in Hc. discriminate. }
      assert (He : PyDate.date_eqb d sd = false).
      { destruct (PyDate.date_eqb d sd) eqn:H; [|reflexivity].
        apply date_eqb_eq in H. subst. rewrite date_lt_irrefl in Hgt. discriminate. }
      rewrite Hn, He. reflexivity.
Qed.

(** X14: the script's window of [n] days back.  When the clock is past
    midnight a message is in range exactly when its day is one of the [n]
    calendar days ending today (none for [n = 0]); at midnight sharp the
    day [n] days back is in range too, which makes [n + 1] days. *)
Theorem script_window_days (env : Script.Env) (n : nat) :
  let today := PyDate.dt_date (Script.now env) in
  let tod := PyDate.dt_tod (Script.now env) in
  PyDate.valid_date today = true ->
  (1 <= PyDate.year (PyDate.days_before n today))%Z ->
  exists start_dt,
    Script.minus_days (Script.now env) (Z.of_nat n) = Some start_dt
    /\ forall msg d, msg_day msg = Some d ->
         ((0 < tod)%Z ->
          (Script.in_range start_dt (Script.now env) msg = Some true
           <-> In d (days_ending n today)))
         /\ (tod = 0%Z ->
             (Script.in_range start_dt (Script.now env) msg = Some true
              <-> In d (days_ending (S n) today))).
Proof.
  intros today tod Hvalid Hyear.
  exists (PyDate.mkDatetime (PyDate.days_before n today) tod). split.
  - unfold Script.minus_days. rewrite (proj2 (Z.leb_le 0 (Z.of_nat n))) by lia.
    rewrite Nat2Z.id. fold today tod.
    destruct (Z.ltb_spec (PyDate.year (PyDate.days_before n today)) PyDate.MINYEAR)
      as [Hlow|_]; [unfold PyDate.MINYEAR in Hlow; lia | reflexivity].
  - intros msg d Hday.
    unfold msg_day in Hday. unfold Script.in_range.
    destruct (PyDate.strptime_ymd (PyStr.take 10 (Raw.date msg))) as [dt|] eqn:Hparse;
      [|discriminate].
    simpl in Hday. inversion Hday; subst d.
    destruct (strptime_midnight _ _ Hparse) as [Hmid Hd]. rewrite Hmid.
    set (d := PyDate.dt_date dt) in *.
    assert (Hnow : Script.now env = PyDate.mkDatetime today tod)
      by (subst today tod; destruct (Script.now env); reflexivity).
    rewrite Hnow.
    destruct (script_bounds (PyDate.days_before n today) today d tod) as [Hhigh Hlow].
    rewrite Hhigh, Hlow.
    assert (Hiff : forall b : bool, Some b = Some true <-> b = true)
      by (intros b; split; [intros H; inversion H; reflexivity | intros ->; reflexivity]).
    rewrite Hiff. split.
    + intros Hpos.
      rewrite (proj2 (Z.ltb_lt 0 tod)) by exact Hpos.
      rewrite (proj2 (Z.ltb_ge tod 0)) by lia.
      destruct n as [|k].
      * simpl. rewrite andb_true_iff. split; [|intros []].
        intros [Hlt Hle]. apply date_le_iff in Hle. contradiction.
      * rewrite days_before_succ_r in *.
        assert (Hyear' : (1 <= PyDate.year (PyDate.days_before k today))%Z).
        { pose proof (prev_day_year (PyDate.days_before k today)). lia. }
        pose proof (days_before_valid k today Hvalid Hyear') as Hx.
        rewrite <- (days_between k today d Hvalid Hyear' Hd).
        rewrite !andb_true_iff, (date_lt_prev_day _ d Hx Hd). reflexivity.
    + intros Hzero. rewrite Hzero. simpl.
      apply (days_between n today d Hvalid Hyear Hd).
Qed.

Lemma script_window_days_witness :
  let env := SampleRows.script_env FileAbsent in
  exists start_dt,
    Script.minus_days (Script.now env) 7 = Some start_dt
    /\ forall msg d, msg_day msg = Some d ->
         (Script.in_range start_dt (Script.now env) msg = Some true
          <-> In d (days_ending 7 (PyDate.mkDate 2024 3 10))).
Proof.
  intros env.
  destruct (script_window_days env 7) as [start_dt [Hstart Hrange]].
  - reflexivity.
  - vm_compute. discriminate.
  - exists start_dt. split; [exact Hstart|].
    intros msg d Hday. destruct (Hrange msg d Hday) as [Hpast _].
    apply Hpast. reflexivity.
Defined.



Lemma script_lookup_cases {S : StrLib} (env : Script.Env) (contact_name : string)
    (contacts_map : Directory) :
  Script.lookup_contact_numbers env contact_name contacts_map
  = match contacts_map, Script.contacts_file env with
    | [], FileBroken err => (inl err, [])
    | [], FileHolds d => (inr (lookup_in d contact_name), d)
    | _, _ => (inr (lookup_in contacts_map contact_name), contacts_map)
    end.
Proof.
  unfold Script.lookup_contact_numbers, Script.load_contacts_map, lookup_in.
  destruct contacts_map; destruct (Script.contacts_file env); reflexivity.
Qed.

(** X16: the script resolves through the directory only.  A contact
    that the lookup does not answer with a phone gets [None], also when
    the contact is itself a valid phone number; and a directory file that
    cannot be read, met with an empty map, is not survived: the exception
    of the loader leaves the function. *)
Theorem script_resolves_by_directory_only
    (L : PhoneLib) (S : StrLib) (env : Script.Env) (contact_name : string) (days_back : Z)
    (contacts_map : Directory) :
  (forall ph phs,
     (Script.lookup_contact_numbers env contact_name contacts_map).1
     <> inr (Some (ph :: phs))) ->
  match Script.contacts_file env, contacts_map with
  | FileBroken err, [] =>
      (Script.get_messages_for_contact env contact_name days_back contacts_map).1
      = inl err
  | _, _ =>
      (Script.get_messages_for_contact env contact_name days_back contacts_map).1
      = inr None
  end.
Proof.
  unfold Script.get_messages_for_contact. rewrite script_lookup_cases.
  intros Hno.
  destruct contacts_map as [|entry rest];
    destruct (Script.contacts_file env) as [|err|d]; cbn [fst] in *;
    try reflexivity;
    match goal with
    | |- context [lookup_in ?m contact_name] =>
        destruct (lookup_in m contact_name) as [[|ph phs]|];
        [reflexivity | exfalso; exact (Hno ph phs eq_refl) | reflexivity]
    end.
Qed.

Lemma script_resolves_by_directory_only_witness :
  (Script.get_messages_for_contact (L := Nanp.lib) (S := AsciiText.lib)
     (SampleRows.script_env (FileHolds Sample.directory)) "650-253-0000" 7 []).1
  = inr None
  /\ (Script.get_messages_for_contact (L := Nanp.lib) (S := AsciiText.lib)
        (SampleRows.script_env (FileBroken "Expecting value")) "Ann Smith" 7 []).1
     = inl "Expecting value".
Proof.
  split.
  - apply (script_resolves_by_directory_only Nanp.lib AsciiText.lib
             (SampleRows.script_env (FileHolds Sample.directory)) "650-253-0000" 7 []).
    intros ph phs. vm_compute. discriminate.
  - apply (script_resolves_by_directory_only Nanp.lib AsciiText.lib
             (SampleRows.script_env (FileBroken "Expecting value")) "Ann Smith" 7 []).
    intros ph phs. vm_compute. discriminate.
Defined.

(** * The exporter's search for the address book *)




